(** * prodversion: the 64-byte version record, its encoder, decoder and formatter

    A shallow embedding of the tagged 64-byte generation of the format:
    the C header (prodVersion_t, prodVersionEncodeBytes,
    prodVersionDecodeBytes, prodVersionToString) and the C# struct
    VersionInfo (Decode, GetCString, ToString).

    Conventions of the embedding.
    - A byte of memory is a [Z] holding its bit pattern, 0..255.  Whether the
      C type [char] is signed, and whether the enum type is, is left to the
      platform: both are parameters of the development.
    - [size_t] lengths and offsets are [nat]; no offset exceeds 64.
    - A C buffer passed as (pointer, length) is one [list Z]; a pointer that
      may be NULL is an [option].
    - A C output parameter is passed in and returned (state passing); a C#
      [out] parameter, assigned by the callee before anything else, is
      returned only. *)

From Stdlib Require Import String Ascii DecimalString.
From Stdlib Require Import ZArith List Bool Lia.
Import ListNotations.
Local Open Scope Z_scope.

(** ** Bytes, text and memory *)

Definition bytes_of_string (s : string) : list Z :=
  map (fun a => Z.of_N (N_of_ascii a)) (list_ascii_of_string s).

(** Integer conversions, with the wrap-around written out. *)
Definition u8 (x : Z) : Z := x mod 2 ^ 8.
Definition u16 (x : Z) : Z := x mod 2 ^ 16.
Definition u64 (x : Z) : Z := x mod 2 ^ 64.

(** Conversion of an integer to [char]: the bit pattern that is stored. *)
Definition to_char (x : Z) : Z := x mod 2 ^ 8.

Definition nonzero (c : Z) : bool := negb (c =? 0).

(** The characters of a char array up to its first NUL. *)
Fixpoint cstr (a : list Z) : list Z :=
  match a with
  | [] => []
  | c :: a' => if nonzero c then c :: cstr a' else []
  end.

(** A char array read as a C string ([%s], [strlen]): defined only when a
    terminator lies inside the array. *)
Definition c_string (a : list Z) : option (list Z) :=
  if existsb (Z.eqb 0) a then Some (cstr a) else None.

(** [write_at off src dst]: the cells [off .. off + length src) of [dst] are
    overwritten with [src].  Every caller writes inside [dst]. *)
Definition write_at (off : nat) (src dst : list Z) : list Z :=
  firstn off dst ++ src ++ skipn (off + length src) dst.

(** [dst[off] = v] *)
Definition poke (dst : list Z) (off : nat) (v : Z) : list Z :=
  write_at off [v] dst.

(** [memset(dst + off, c, n)] *)
Definition memset (dst : list Z) (off : nat) (c : Z) (n : nat) : list Z :=
  write_at off (repeat c n) dst.

(** [memcpy(dst + off, src, n)] *)
Definition memcpy (dst : list Z) (off : nat) (src : list Z) (n : nat) : list Z :=
  write_at off (firstn n src) dst.

(** What [strncpy(_, src, n)] writes: the characters of [src] before its first
    NUL, at most [n] of them, then NULs up to [n] bytes. *)
Definition strncpy_bytes (n : nat) (src : list Z) : list Z :=
  let s := cstr (firstn n src) in
  s ++ repeat 0 (n - length s).

(** [strncpy(dst + off, src, n)] *)
Definition strncpy (dst : list Z) (off : nat) (src : list Z) (n : nat) : list Z :=
  write_at off (strncpy_bytes n src) dst.

(** [%u] of a non-negative integer; also the C# rendering of a [ushort]. *)
Definition fmt_u (n : Z) : list Z :=
  bytes_of_string (NilZero.string_of_uint (N.to_uint (Z.to_N n))).

Definition INT_MAX : Z := 2 ^ 31 - 1.

(** [snprintf(str, size, ...)] once the conversions are rendered: at most
    [size - 1] bytes and a NUL are stored, and the length of the whole
    rendering is returned (a negative value when it is not an [int]). *)
Definition snprintf (str : list Z) (size : nat) (rendered : list Z) : Z * list Z :=
  let written :=
    if Z.of_nat (length rendered) <=? INT_MAX
    then Z.of_nat (length rendered) else -1 in
  match size with
  | O => (written, str)
  | S k => (written, write_at 0 (firstn k rendered ++ [0]) str)
  end.

(** ** The C header *)

Definition PRODVER_STRUCTVER : Z := 1.
Definition PRODVER_PRODUCT_LEN : nat := 24.
Definition PRODVER_METADATA_LEN : nat := 15.
Definition PRODVER_COMMIT_LEN : nat := 7.
Definition PRODVER_ENCODED_LEN : nat := 64.

Definition VERSION_CHANNEL_DEV : Z := 100.
Definition VERSION_CHANNEL_INTERNAL : Z := 105.
Definition VERSION_CHANNEL_ALPHA : Z := 97.
Definition VERSION_CHANNEL_BETA : Z := 98.
Definition VERSION_CHANNEL_CANDIDATE : Z := 99.
Definition VERSION_CHANNEL_RELEASE : Z := 114.
Definition VERSION_CHANNEL_FACTORY : Z := 102.

(** [prodVersion_t].  The char arrays have 25, 16 and 8 cells. *)
Record prodVersion_t : Type := mkProdVersion {
  product : list Z;
  major : Z;
  minor : Z;
  patch : Z;
  build : Z;
  releaseChannel : Z;
  metadata : list Z;
  commitHash : list Z;
  date : Z
}.

Definition set_product (v : prodVersion_t) (a : list Z) : prodVersion_t :=
  mkProdVersion a (major v) (minor v) (patch v) (build v) (releaseChannel v)
    (metadata v) (commitHash v) (date v).
Definition set_major (v : prodVersion_t) (x : Z) : prodVersion_t :=
  mkProdVersion (product v) x (minor v) (patch v) (build v) (releaseChannel v)
    (metadata v) (commitHash v) (date v).
Definition set_minor (v : prodVersion_t) (x : Z) : prodVersion_t :=
  mkProdVersion (product v) (major v) x (patch v) (build v) (releaseChannel v)
    (metadata v) (commitHash v) (date v).
Definition set_patch (v : prodVersion_t) (x : Z) : prodVersion_t :=
  mkProdVersion (product v) (major v) (minor v) x (build v) (releaseChannel v)
    (metadata v) (commitHash v) (date v).
Definition set_build (v : prodVersion_t) (x : Z) : prodVersion_t :=
  mkProdVersion (product v) (major v) (minor v) (patch v) x (releaseChannel v)
    (metadata v) (commitHash v) (date v).
Definition set_releaseChannel (v : prodVersion_t) (x : Z) : prodVersion_t :=
  mkProdVersion (product v) (major v) (minor v) (patch v) (build v) x
    (metadata v) (commitHash v) (date v).
Definition set_metadata (v : prodVersion_t) (a : list Z) : prodVersion_t :=
  mkProdVersion (product v) (major v) (minor v) (patch v) (build v)
    (releaseChannel v) a (commitHash v) (date v).
Definition set_commitHash (v : prodVersion_t) (a : list Z) : prodVersion_t :=
  mkProdVersion (product v) (major v) (minor v) (patch v) (build v)
    (releaseChannel v) (metadata v) a (date v).
Definition set_date (v : prodVersion_t) (x : Z) : prodVersion_t :=
  mkProdVersion (product v) (major v) (minor v) (patch v) (build v)
    (releaseChannel v) (metadata v) (commitHash v) x.

(** [(char)e] for a value [e] of the enum type. *)
Definition char_of_enum (e : Z) : Z := to_char e.

(** [size_t prodVersionEncodeBytes(char* ret_buf, const size_t len,
    const prodVersion_t* version)]: the number of bytes written and the
    buffer after the call. *)
Definition prodVersionEncodeBytes (ret_buf : option (list Z))
    (version : option prodVersion_t) : nat * option (list Z) :=
  match ret_buf, version with
  | Some buf, Some v =>
    if (length buf <? PRODVER_ENCODED_LEN)%nat then (0%nat, ret_buf) else
    let offset := 0%nat in
    (* Structure version *)
    let buf := poke buf offset PRODVER_STRUCTVER in
    let offset := S offset in
    (* Product/Part identifier *)
    let buf := memset buf offset 0 PRODVER_PRODUCT_LEN in
    let buf := strncpy buf offset (product v) PRODVER_PRODUCT_LEN in
    let offset := (offset + PRODVER_PRODUCT_LEN)%nat in
    (* Semantic versioning *)
    let buf := poke buf offset (to_char (Z.land (Z.shiftr (major v) 8) 255)) in
    let offset := S offset in
    let buf := poke buf offset (to_char (Z.land (major v) 255)) in
    let offset := S offset in
    let buf := poke buf offset (to_char (Z.land (Z.shiftr (minor v) 8) 255)) in
    let offset := S offset in
    let buf := poke buf offset (to_char (Z.land (minor v) 255)) in
    let offset := S offset in
    let buf := poke buf offset (to_char (Z.land (Z.shiftr (patch v) 8) 255)) in
    let offset := S offset in
    let buf := poke buf offset (to_char (Z.land (patch v) 255)) in
    let offset := S offset in
    let buf := poke buf offset (to_char (Z.land (Z.shiftr (build v) 8) 255)) in
    let offset := S offset in
    let buf := poke buf offset (to_char (Z.land (build v) 255)) in
    let offset := S offset in
    (* Release channel *)
    let buf := poke buf offset (char_of_enum (releaseChannel v)) in
    let offset := S offset in
    (* Metadata *)
    let buf := memset buf offset 0 PRODVER_METADATA_LEN in
    let buf := strncpy buf offset (metadata v) PRODVER_METADATA_LEN in
    let offset := (offset + PRODVER_METADATA_LEN)%nat in
    (* Commit identifier *)
    let buf := memset buf offset 0 PRODVER_COMMIT_LEN in
    let buf := strncpy buf offset (commitHash v) PRODVER_COMMIT_LEN in
    let offset := (offset + PRODVER_COMMIT_LEN)%nat in
    (* Date *)
    let d := date v in
    let buf := poke buf offset (to_char (Z.land (Z.shiftr d 56) 255)) in
    let offset := S offset in
    let buf := poke buf offset (to_char (Z.land (Z.shiftr d 48) 255)) in
    let offset := S offset in
    let buf := poke buf offset (to_char (Z.land (Z.shiftr d 40) 255)) in
    let offset := S offset in
    let buf := poke buf offset (to_char (Z.land (Z.shiftr d 32) 255)) in
    let offset := S offset in
    let buf := poke buf offset (to_char (Z.land (Z.shiftr d 24) 255)) in
    let offset := S offset in
    let buf := poke buf offset (to_char (Z.land (Z.shiftr d 16) 255)) in
    let offset := S offset in
    let buf := poke buf offset (to_char (Z.land (Z.shiftr d 8) 255)) in
    let offset := S offset in
    let buf := poke buf offset (to_char (Z.land d 255)) in
    let offset := S offset in
    (offset, Some buf)
  | _, _ => (0%nat, ret_buf)
  end.

(** A step that may be undefined. *)
Notation "'let?' x ':=' e 'in' k" :=
  (match e with Some x => k | None => None end)
  (at level 10, x name, e at level 200, k at level 200).

(** The conversions of the format ["%s %u.%u.%u%c%s%s%s%s%s%c"] applied to
    the eleven arguments of the call, in order.  [None] when a [%s] argument
    that is read has no terminator inside its array. *)
Definition rendered (v : prodVersion_t) : option (list Z) :=
  let release := releaseChannel v =? VERSION_CHANNEL_RELEASE in
  let? a_product :=
    if nonzero (nth 0 (product v) 0) then c_string (product v) else Some [] in
  let? a_metadata := c_string (metadata v) in
  let? a_commit :=
    if negb release then c_string (commitHash v) else Some [] in
  Some (a_product ++ bytes_of_string " "
        ++ fmt_u (major v) ++ bytes_of_string "."
        ++ fmt_u (minor v) ++ bytes_of_string "."
        ++ fmt_u (patch v)
        ++ [to_char (char_of_enum (releaseChannel v))]
        ++ (if nonzero (nth 0 (metadata v) 0)
            then bytes_of_string "-" else [])
        ++ a_metadata
        ++ (if negb release then bytes_of_string " (" else [])
        ++ a_commit
        ++ (if negb release then bytes_of_string ")" else [])
        ++ [to_char (build v)]).

(** [size_t prodVersionToString(const prodVersion_t* version, char* ret_str,
    size_t buf_len)]: the returned length and the buffer after the call. *)
Definition prodVersionToString (version : option prodVersion_t)
    (ret_str : option (list Z)) : option (nat * option (list Z)) :=
  match version, ret_str with
  | Some v, Some str =>
    let buf_len := length str in
    if (buf_len =? 0)%nat then Some (0%nat, ret_str) else
    if (buf_len <? 2)%nat then Some (0%nat, Some (poke str 0 0)) else
    let? text := rendered v in
    let '(written, str) := snprintf str buf_len text in
    if (written <? 0) || (Z.of_nat buf_len <=? written)
    then Some (0%nat, Some (poke str 0 0))
    else Some (Z.to_nat written, Some str)
  | _, _ => Some (0%nat, ret_str)
  end.

(** The C string left in the output buffer of a call. *)
Definition text_of (r : option (nat * option (list Z))) : option (list Z) :=
  match r with
  | Some (_, Some out) => Some (cstr out)
  | _ => None
  end.

Section Platform.

(** Whether plain [char] is a signed type, and whether the type of
    [prodVersionChannel_t] is ([int]) or not ([unsigned int]). *)
Variable char_is_signed : bool.
Variable enum_is_signed : bool.

(** The value of the [char] with bit pattern [b]. *)
Definition int_of_char (b : Z) : Z :=
  if char_is_signed && (128 <=? u8 b) then u8 b - 256 else u8 b.

(** [(prodVersionChannel_t)c] for a [char] c. *)
Definition enum_of_char (b : Z) : Z :=
  if enum_is_signed then int_of_char b else int_of_char b mod 2 ^ 32.

(** [bool prodVersionDecodeBytes(const char* buf, const size_t len,
    prodVersion_t* ret_version)]: the result and the struct after the call. *)
Definition prodVersionDecodeBytes (buf : option (list Z))
    (ret_version : option prodVersion_t) : bool * option prodVersion_t :=
  match buf, ret_version with
  | Some buf, Some v =>
    if (length buf <? PRODVER_ENCODED_LEN)%nat then (false, ret_version) else
    let offset := 0%nat in
    (* Validate structure version *)
    let structVer := u8 (nth offset buf 0) in
    let offset := S offset in
    if negb (structVer =? PRODVER_STRUCTVER) then (false, ret_version) else
    (* Product *)
    let v := set_product v
      (memcpy (product v) 0 (skipn offset buf) PRODVER_PRODUCT_LEN) in
    let v := set_product v (poke (product v) PRODVER_PRODUCT_LEN 0) in
    let offset := (offset + PRODVER_PRODUCT_LEN)%nat in
    (* Semantic Versioning *)
    let v := set_major v
      (u16 (Z.lor (Z.shiftl (u8 (nth offset buf 0)) 8)
                  (u8 (nth (offset + 1) buf 0)))) in
    let offset := (offset + 2)%nat in
    let v := set_minor v
      (u16 (Z.lor (Z.shiftl (u8 (nth offset buf 0)) 8)
                  (u8 (nth (offset + 1) buf 0)))) in
    let offset := (offset + 2)%nat in
    let v := set_patch v
      (u16 (Z.lor (Z.shiftl (u8 (nth offset buf 0)) 8)
                  (u8 (nth (offset + 1) buf 0)))) in
    let offset := (offset + 2)%nat in
    let v := set_build v
      (u16 (Z.lor (Z.shiftl (u8 (nth offset buf 0)) 8)
                  (u8 (nth (offset + 1) buf 0)))) in
    let offset := (offset + 2)%nat in
    (* Release channel *)
    let v := set_releaseChannel v (enum_of_char (nth offset buf 0)) in
    let offset := S offset in
    (* Metadata *)
    let v := set_metadata v
      (memcpy (metadata v) 0 (skipn offset buf) PRODVER_METADATA_LEN) in
    let v := set_metadata v (poke (metadata v) PRODVER_METADATA_LEN 0) in
    let offset := (offset + PRODVER_METADATA_LEN)%nat in
    (* Commit hash *)
    let v := set_commitHash v
      (memcpy (commitHash v) 0 (skipn offset buf) PRODVER_COMMIT_LEN) in
    let v := set_commitHash v (poke (commitHash v) PRODVER_COMMIT_LEN 0) in
    let offset := (offset + PRODVER_COMMIT_LEN)%nat in
    (* Date *)
    let d := 0 in
    let d := Z.lor d (u64 (Z.shiftl (u8 (nth offset buf 0)) 56)) in
    let offset := S offset in
    let d := Z.lor d (u64 (Z.shiftl (u8 (nth offset buf 0)) 48)) in
    let offset := S offset in
    let d := Z.lor d (u64 (Z.shiftl (u8 (nth offset buf 0)) 40)) in
    let offset := S offset in
    let d := Z.lor d (u64 (Z.shiftl (u8 (nth offset buf 0)) 32)) in
    let offset := S offset in
    let d := Z.lor d (u64 (Z.shiftl (u8 (nth offset buf 0)) 24)) in
    let offset := S offset in
    let d := Z.lor d (u64 (Z.shiftl (u8 (nth offset buf 0)) 16)) in
    let offset := S offset in
    let d := Z.lor d (u64 (Z.shiftl (u8 (nth offset buf 0)) 8)) in
    let offset := S offset in
    let d := Z.lor d (u64 (u8 (nth offset buf 0))) in
    let v := set_date v d in
    (true, Some v)
  | _, _ => (false, ret_version)
  end.

End Platform.

(** ** The C# struct *)

Module VersionInfo.

Definition ENCODING_VERSION : Z := 1.
Definition PRODUCT_SIZE : nat := 24.
Definition METADATA_SIZE : nat := 15.
Definition COMMIT_HASH_SIZE : nat := 7.

(** [enum ReleaseChannel : byte] *)
Definition Dev : Z := 100.
Definition Internal : Z := 105.
Definition Alpha : Z := 97.
Definition Beta : Z := 98.
Definition Candidate : Z := 99.
Definition Release : Z := 114.
Definition Factory : Z := 102.

(** The private fields; a string is a list of character codes, [None] is
    the null reference. *)
Record t : Type := mk {
  _product : option (list Z);
  _major : Z;
  _minor : Z;
  _patch : Z;
  _build : Z;
  _releaseChannel : Z;
  _metadata : option (list Z);
  _commitHash : option (list Z);
  _unixTimestamp : Z
}.

(** [new VersionInfo()] *)
Definition new_VersionInfo : t := mk None 0 0 0 0 0 None None 0.

Fixpoint drop_nuls (s : list Z) : list Z :=
  match s with
  | [] => []
  | c :: s' => if c =? 0 then drop_nuls s' else s
  end.

(** [s.TrimEnd('\0')] *)
Definition TrimEnd (s : list Z) : list Z := rev (drop_nuls (rev s)).

(** [s ?? string.Empty] *)
Definition or_empty (s : option (list Z)) : list Z :=
  match s with Some s => s | None => [] end.

(** The setters cut the value to the field size. *)
Definition clip (size : nat) (value : option (list Z)) : option (list Z) :=
  match value with
  | Some s => if (size <? length s)%nat then Some (firstn size s) else value
  | None => value
  end.

Definition Product (v : t) : list Z := TrimEnd (or_empty (_product v)).
Definition Metadata (v : t) : list Z := TrimEnd (or_empty (_metadata v)).
Definition CommitHash (v : t) : list Z := TrimEnd (or_empty (_commitHash v)).

Definition set_Product (v : t) (value : option (list Z)) : t :=
  mk (Some (or_empty (clip PRODUCT_SIZE value))) (_major v) (_minor v)
     (_patch v) (_build v) (_releaseChannel v) (_metadata v) (_commitHash v)
     (_unixTimestamp v).
Definition set_Metadata (v : t) (value : option (list Z)) : t :=
  mk (_product v) (_major v) (_minor v) (_patch v) (_build v)
     (_releaseChannel v) (Some (or_empty (clip METADATA_SIZE value)))
     (_commitHash v) (_unixTimestamp v).
Definition set_CommitHash (v : t) (value : option (list Z)) : t :=
  mk (_product v) (_major v) (_minor v) (_patch v) (_build v)
     (_releaseChannel v) (_metadata v)
     (Some (or_empty (clip COMMIT_HASH_SIZE value))) (_unixTimestamp v).
Definition set_Major (v : t) (x : Z) : t :=
  mk (_product v) x (_minor v) (_patch v) (_build v) (_releaseChannel v)
     (_metadata v) (_commitHash v) (_unixTimestamp v).
Definition set_Minor (v : t) (x : Z) : t :=
  mk (_product v) (_major v) x (_patch v) (_build v) (_releaseChannel v)
     (_metadata v) (_commitHash v) (_unixTimestamp v).
Definition set_Patch (v : t) (x : Z) : t :=
  mk (_product v) (_major v) (_minor v) x (_build v) (_releaseChannel v)
     (_metadata v) (_commitHash v) (_unixTimestamp v).
Definition set_Build (v : t) (x : Z) : t :=
  mk (_product v) (_major v) (_minor v) (_patch v) x (_releaseChannel v)
     (_metadata v) (_commitHash v) (_unixTimestamp v).
Definition set_ReleaseChannel (v : t) (x : Z) : t :=
  mk (_product v) (_major v) (_minor v) (_patch v) (_build v) x
     (_metadata v) (_commitHash v) (_unixTimestamp v).
Definition set_unixTimestamp (v : t) (x : Z) : t :=
  mk (_product v) (_major v) (_minor v) (_patch v) (_build v)
     (_releaseChannel v) (_metadata v) (_commitHash v) x.

(** [Encoding.ASCII.GetString(buffer, offset, length)]: a byte above 127
    decodes to '?'. *)
Definition ASCII_GetString (buffer : list Z) (offset length : nat) : list Z :=
  map (fun b => if b <? 128 then b else 63) (firstn length (skipn offset buffer)).

(** [str.IndexOf('\0')] *)
Fixpoint IndexOf_nul (str : list Z) : Z :=
  match str with
  | [] => -1
  | c :: s' =>
    if c =? 0 then 0
    else let i := IndexOf_nul s' in if i <? 0 then -1 else i + 1
  end.

Definition GetCString (buffer : list Z) (offset length : nat) : list Z :=
  let str := ASCII_GetString buffer offset length in
  let nullIndex := IndexOf_nul str in
  if 0 <=? nullIndex then firstn (Z.to_nat nullIndex) str else str.

(** How a call ends, with the value of the [out] parameter at that point. *)
Inductive outcome : Type :=
| Returned (result : bool) (version : t)
| Thrown_NotImplementedException (message : list Z) (version : t).

(** [public static bool Decode(byte[] buffer, out VersionInfo version)] *)
Definition Decode (buffer : option (list Z)) : outcome :=
  let version := new_VersionInfo in
  match buffer with
  | None => Returned false version
  | Some buffer =>
    if negb (length buffer =? 64)%nat then Returned false version else
    let offset := 0%nat in
    (* Verify structure version *)
    let ver := nth offset buffer 0 in
    let offset := S offset in
    if negb (ver =? 1)
    then Thrown_NotImplementedException
           (bytes_of_string "Unsupported structure version: " ++ fmt_u ver)
           version
    else
    (* Part/Product Identifier *)
    let version :=
      set_Product version (Some (GetCString buffer offset PRODUCT_SIZE)) in
    let offset := (offset + PRODUCT_SIZE)%nat in
    (* Semantic Version *)
    let version := set_Major version
      (u16 (Z.lor (Z.shiftl (nth offset buffer 0) 8)
                  (nth (offset + 1) buffer 0))) in
    let offset := (offset + 2)%nat in
    let version := set_Minor version
      (u16 (Z.lor (Z.shiftl (nth offset buffer 0) 8)
                  (nth (offset + 1) buffer 0))) in
    let offset := (offset + 2)%nat in
    let version := set_Patch version
      (u16 (Z.lor (Z.shiftl (nth offset buffer 0) 8)
                  (nth (offset + 1) buffer 0))) in
    let offset := (offset + 2)%nat in
    let version := set_Build version
      (u16 (Z.lor (Z.shiftl (nth offset buffer 0) 8)
                  (nth (offset + 1) buffer 0))) in
    let offset := (offset + 2)%nat in
    (* Release channel *)
    let version := set_ReleaseChannel version (nth offset buffer 0) in
    let offset := S offset in
    (* Metadata *)
    let version :=
      set_Metadata version (Some (GetCString buffer offset METADATA_SIZE)) in
    let offset := (offset + METADATA_SIZE)%nat in
    (* Commit *)
    let version :=
      set_CommitHash version
        (Some (GetCString buffer offset COMMIT_HASH_SIZE)) in
    let offset := (offset + COMMIT_HASH_SIZE)%nat in
    (* Timestamp *)
    let version := set_unixTimestamp version
      (Z.lor (Z.lor (Z.lor (Z.lor (Z.lor (Z.lor (Z.lor
         (u64 (Z.shiftl (nth offset buffer 0) 56))
         (u64 (Z.shiftl (nth (offset + 1) buffer 0) 48)))
         (u64 (Z.shiftl (nth (offset + 2) buffer 0) 40)))
         (u64 (Z.shiftl (nth (offset + 3) buffer 0) 32)))
         (u64 (Z.shiftl (nth (offset + 4) buffer 0) 24)))
         (u64 (Z.shiftl (nth (offset + 5) buffer 0) 16)))
         (u64 (Z.shiftl (nth (offset + 6) buffer 0) 8)))
         (nth (offset + 7) buffer 0)) in
    Returned true version
  end.

(** [string.IsNullOrEmpty] of a non-null string. *)
Definition IsEmpty (s : list Z) : bool :=
  match s with [] => true | _ => false end.

(** [public override string ToString()] *)
Definition ToString (v : t) : list Z :=
  Product v ++ bytes_of_string " "
  ++ fmt_u (_major v) ++ bytes_of_string "."
  ++ fmt_u (_minor v) ++ bytes_of_string "."
  ++ fmt_u (_patch v)
  ++ [_releaseChannel v]
  ++ (if IsEmpty (TrimEnd (Metadata v)) then []
      else bytes_of_string "-" ++ TrimEnd (Metadata v))
  ++ (if negb (_releaseChannel v =? Release)
      then bytes_of_string " (" ++ TrimEnd (CommitHash v) ++ bytes_of_string ")"
      else [])
  ++ (if _build v =? 0 then []
      else bytes_of_string " build " ++ fmt_u (_build v)).

(** [Encoding.ASCII.GetBytes(s)]: a character above 127 encodes to '?'
    (surrogate pairs are outside this model). *)
Definition ASCII_GetBytes (s : list Z) : list Z :=
  map (fun c => if c <? 128 then c else 63) s.

(** [src.CopyTo(buffer, index)]: [None] is the [ArgumentException] raised
    when [src] does not fit in [buffer] from [index] on. *)
Definition CopyTo (src buffer : list Z) (index : nat) : option (list Z) :=
  if (index + length src <=? length buffer)%nat
  then Some (write_at index src buffer)
  else None.

(** [(byte)x] *)
Definition to_byte (x : Z) : Z := x mod 256.

(** How a call of [Encode] ends. *)
Inductive encoded : Type :=
| Encoded (buffer : list Z)
| Thrown_ArgumentException.

Notation "'try' x ':=' e 'in' k" :=
  (match e with Some x => k | None => Thrown_ArgumentException end)
  (at level 10, x name, e at level 200, k at level 200).

(** [public static byte[] Encode(VersionInfo version)] *)
Definition Encode (version : t) : encoded :=
  let buffer := repeat 0 64 in
  let offset := 0%nat in
  (* Version structure byte *)
  let buffer := poke buffer offset ENCODING_VERSION in
  let offset := S offset in
  (* Product/Part ID *)
  try buffer := CopyTo (ASCII_GetBytes (Product version)) buffer offset in
  let offset := (offset + PRODUCT_SIZE)%nat in
  (* Semantic version *)
  let buffer := poke buffer offset (to_byte (Z.shiftr (_major version) 8)) in
  let offset := S offset in
  let buffer := poke buffer offset (to_byte (_major version)) in
  let offset := S offset in
  let buffer := poke buffer offset (to_byte (Z.shiftr (_minor version) 8)) in
  let offset := S offset in
  let buffer := poke buffer offset (to_byte (_minor version)) in
  let offset := S offset in
  let buffer := poke buffer offset (to_byte (Z.shiftr (_patch version) 8)) in
  let offset := S offset in
  let buffer := poke buffer offset (to_byte (_patch version)) in
  let offset := S offset in
  let buffer := poke buffer offset (to_byte (Z.shiftr (_build version) 8)) in
  let offset := S offset in
  let buffer := poke buffer offset (to_byte (_build version)) in
  let offset := S offset in
  (* Release channel *)
  let buffer := poke buffer offset (to_byte (_releaseChannel version)) in
  let offset := S offset in
  (* Metadata *)
  try buffer := CopyTo (ASCII_GetBytes (Metadata version)) buffer offset in
  let offset := (offset + METADATA_SIZE)%nat in
  (* Commit hash *)
  try buffer := CopyTo (ASCII_GetBytes (CommitHash version)) buffer offset in
  let offset := (offset + COMMIT_HASH_SIZE)%nat in
  (* Timestamp *)
  let buffer :=
    poke buffer offset (to_byte (Z.shiftr (_unixTimestamp version) 56)) in
  let offset := S offset in
  let buffer :=
    poke buffer offset (to_byte (Z.shiftr (_unixTimestamp version) 48)) in
  let offset := S offset in
  let buffer :=
    poke buffer offset (to_byte (Z.shiftr (_unixTimestamp version) 40)) in
  let offset := S offset in
  let buffer :=
    poke buffer offset (to_byte (Z.shiftr (_unixTimestamp version) 32)) in
  let offset := S offset in
  let buffer :=
    poke buffer offset (to_byte (Z.shiftr (_unixTimestamp version) 24)) in
  let offset := S offset in
  let buffer :=
    poke buffer offset (to_byte (Z.shiftr (_unixTimestamp version) 16)) in
  let offset := S offset in
  let buffer :=
    poke buffer offset (to_byte (Z.shiftr (_unixTimestamp version) 8)) in
  let offset := S offset in
  let buffer := poke buffer offset (to_byte (_unixTimestamp version)) in
  Encoded buffer.

End VersionInfo.

(** ** The wire format as section 6 of the specification words it *)

(** [n] bytes of [x], most significant first. *)
Fixpoint big_endian (n : nat) (x : Z) : list Z :=
  match n with
  | O => []
  | S k => (x / 256 ^ Z.of_nat k) mod 256 :: big_endian k x
  end.

(** The unsigned integer that a sequence of bytes denotes, most significant
    byte first. *)
Definition be_value (l : list Z) : Z :=
  fold_left (fun acc b => acc * 256 + b) l 0.

(** A text cut to [w] characters and NUL-padded to the right. *)
Definition nul_padded (w : nat) (text : list Z) : list Z :=
  firstn w text ++ repeat 0 (w - length (firstn w text)).

Definition wire_format (v : prodVersion_t) : list Z :=
  [1]
  ++ nul_padded 24 (cstr (product v))
  ++ big_endian 2 (major v)
  ++ big_endian 2 (minor v)
  ++ big_endian 2 (patch v)
  ++ big_endian 2 (build v)
  ++ [releaseChannel v mod 256]
  ++ nul_padded 15 (cstr (metadata v))
  ++ nul_padded 7 (cstr (commitHash v))
  ++ big_endian 8 (date v).

(** ** Well-formed values *)

Definition is_byte (b : Z) : Prop := 0 <= b < 256.

(** The integer fields of a record are in the range of their types. *)
Definition in_range (v : prodVersion_t) : Prop :=
  0 <= major v < 2 ^ 16 /\ 0 <= minor v < 2 ^ 16 /\
  0 <= patch v < 2 ^ 16 /\ 0 <= build v < 2 ^ 16 /\
  0 <= date v < 2 ^ 64.

(** The enum value is the value of a [char]: what the one byte of the wire
    can carry. *)
Definition is_char_value (char_is_signed enum_is_signed : bool) (e : Z) : Prop :=
  enum_of_char char_is_signed enum_is_signed (char_of_enum e) = e.

(** The three char arrays hold C strings. *)
Definition terminated (v : prodVersion_t) : Prop :=
  In 0 (product v) /\ In 0 (metadata v) /\ In 0 (commitHash v).

(** A char array of [w + 1] cells holding a text of at most [w] characters
    and NUL in every cell after it. *)
Definition zero_filled (w : nat) (a : list Z) : Prop :=
  a = nul_padded w (cstr a) ++ [0].

(** A text slot of the buffer in which every byte after the first NUL is
    NUL as well. *)
Fixpoint zero_after_nul (slot : list Z) : bool :=
  match slot with
  | [] => true
  | c :: slot' =>
    if nonzero c then zero_after_nul slot' else forallb (Z.eqb 0) slot'
  end.

Definition canonical (b : list Z) : Prop :=
  length b = 64%nat /\ Forall is_byte b /\ nth 0 b 0 = 1 /\
  zero_after_nul (firstn 24 (skipn 1 b)) = true /\
  zero_after_nul (firstn 15 (skipn 34 b)) = true /\
  zero_after_nul (firstn 7 (skipn 49 b)) = true.

(** ** The example records of the specification *)

Definition array_of (cells : nat) (text : string) : list Z :=
  bytes_of_string text ++ repeat 0 (cells - length (bytes_of_string text)).

Definition acme (channel build : Z) : prodVersion_t :=
  mkProdVersion (array_of 25 "ACME") 1 2 3 build channel
    (array_of 16 EmptyString) (array_of 8 "abc1234") 1700000000.

Definition acme_info (channel build : Z) : VersionInfo.t :=
  let v := VersionInfo.new_VersionInfo in
  let v := VersionInfo.set_Product v (Some (bytes_of_string "ACME")) in
  let v := VersionInfo.set_Major v 1 in
  let v := VersionInfo.set_Minor v 2 in
  let v := VersionInfo.set_Patch v 3 in
  let v := VersionInfo.set_Build v build in
  let v := VersionInfo.set_ReleaseChannel v channel in
  let v := VersionInfo.set_Metadata v (Some []) in
  let v := VersionInfo.set_CommitHash v (Some (bytes_of_string "abc1234")) in
  VersionInfo.set_unixTimestamp v 1700000000.

(** A struct with nothing in it, to decode into. *)
Definition blank : prodVersion_t :=
  mkProdVersion (repeat 0 25) 0 0 0 0 0 (repeat 0 16) (repeat 0 8) 0.

(** A record whose three texts are one character longer than their slots. *)
Definition overlong : prodVersion_t :=
  mkProdVersion (bytes_of_string "ABCDEFGHIJKLMNOPQRSTUVWXY") 1 2 3 7
    VERSION_CHANNEL_ALPHA (bytes_of_string "0123456789abcdef")
    (bytes_of_string "7b5a2fe0") 1700000000.

(** A 64-byte buffer with the tag 1 and the unknown channel byte 200. *)
Definition unknown_channel : list Z :=
  [1] ++ repeat 0 32 ++ [200] ++ repeat 0 30.

(** ** Records of the two languages *)

(** A text of ASCII characters other than NUL. *)
Definition ascii_text (s : list Z) : Prop := Forall (fun c => 0 < c < 128) s.

(** A C# record as the setters and the decoder leave it: texts within the
    field sizes, made of ASCII characters other than NUL, and integers in
    the range of their types. *)
Definition valid_info (v : VersionInfo.t) : Prop :=
  ascii_text (VersionInfo.or_empty (VersionInfo._product v)) /\
  ascii_text (VersionInfo.or_empty (VersionInfo._metadata v)) /\
  ascii_text (VersionInfo.or_empty (VersionInfo._commitHash v)) /\
  (length (VersionInfo.or_empty (VersionInfo._product v)) <= 24)%nat /\
  (length (VersionInfo.or_empty (VersionInfo._metadata v)) <= 15)%nat /\
  (length (VersionInfo.or_empty (VersionInfo._commitHash v)) <= 7)%nat /\
  0 <= VersionInfo._major v < 2 ^ 16 /\
  0 <= VersionInfo._minor v < 2 ^ 16 /\
  0 <= VersionInfo._patch v < 2 ^ 16 /\
  0 <= VersionInfo._build v < 2 ^ 16 /\
  is_byte (VersionInfo._releaseChannel v) /\
  0 <= VersionInfo._unixTimestamp v < 2 ^ 64.

(** The record with its null strings replaced by empty ones. *)
Definition non_null (v : VersionInfo.t) : VersionInfo.t :=
  VersionInfo.mk
    (Some (VersionInfo.or_empty (VersionInfo._product v)))
    (VersionInfo._major v) (VersionInfo._minor v) (VersionInfo._patch v)
    (VersionInfo._build v) (VersionInfo._releaseChannel v)
    (Some (VersionInfo.or_empty (VersionInfo._metadata v)))
    (Some (VersionInfo.or_empty (VersionInfo._commitHash v)))
    (VersionInfo._unixTimestamp v).

(** The C struct holding the values of a C# record. *)
Definition struct_of (v : VersionInfo.t) : prodVersion_t :=
  mkProdVersion
    (VersionInfo.Product v ++ repeat 0 (25 - length (VersionInfo.Product v)))
    (VersionInfo._major v) (VersionInfo._minor v) (VersionInfo._patch v)
    (VersionInfo._build v) (VersionInfo._releaseChannel v)
    (VersionInfo.Metadata v ++ repeat 0 (16 - length (VersionInfo.Metadata v)))
    (VersionInfo.CommitHash v
     ++ repeat 0 (8 - length (VersionInfo.CommitHash v)))
    (VersionInfo._unixTimestamp v).

(** The C# record holding what the wire form of a C struct carries: the
    texts cut to their widths and the character of the channel. *)
Definition info_of (r : prodVersion_t) : VersionInfo.t :=
  VersionInfo.mk
    (Some (firstn 24 (cstr (product r))))
    (major r) (minor r) (patch r) (build r)
    (char_of_enum (releaseChannel r))
    (Some (firstn 15 (cstr (metadata r))))
    (Some (firstn 7 (cstr (commitHash r))))
    (date r).

(** The three texts of a C struct are ASCII. *)
Definition ascii_struct (r : prodVersion_t) : Prop :=
  ascii_text (cstr (product r)) /\ ascii_text (cstr (metadata r)) /\
  ascii_text (cstr (commitHash r)).

(** A C struct as the decoder leaves it: integers in range and three C
    strings of at most 24, 15 and 7 characters. *)
Definition well_formed (v : prodVersion_t) : Prop :=
  in_range v /\ terminated v /\
  (length (cstr (product v)) <= 24)%nat /\
  (length (cstr (metadata v)) <= 15)%nat /\
  (length (cstr (commitHash v)) <= 7)%nat.

(** [P] at every integer whose binary writing is [prefix] followed by
    [bits] more bits; used to check a property of all 16-bit integers by
    evaluation. *)
Fixpoint all_below (bits : nat) (prefix : Z) (P : Z -> bool) : bool :=
  match bits with
  | O => P prefix
  | S b => all_below b (2 * prefix) P && all_below b (2 * prefix + 1) P
  end.

(** The buffer after a call of the encoder with a buffer. *)
Definition snd_buffer (r : nat * option (list Z)) : list Z :=
  match snd r with Some b => b | None => [] end.

(** A struct that the wire form represents without loss: integers in
    range, a channel that is a character, texts within the widths. *)
Definition representable (char_is_signed enum_is_signed : bool)
    (r : prodVersion_t) : Prop :=
  in_range r /\
  is_char_value char_is_signed enum_is_signed (releaseChannel r) /\
  (length (cstr (product r)) <= 24)%nat /\
  (length (cstr (metadata r)) <= 15)%nat /\
  (length (cstr (commitHash r)) <= 7)%nat.

(** The three text slots of a buffer hold no byte above 127. *)
Definition ascii_slots (b : list Z) : Prop :=
  Forall (fun c => c < 128) (firstn 24 (skipn 1 b)) /\
  Forall (fun c => c < 128) (firstn 15 (skipn 34 b)) /\
  Forall (fun c => c < 128) (firstn 7 (skipn 49 b)).

(** The example struct with bytes left over in the product array after the
    terminator of its text. *)
Definition acme_leftover : prodVersion_t :=
  set_product (acme VERSION_CHANNEL_RELEASE 7)
    (bytes_of_string "ACME" ++ [0] ++ bytes_of_string "leftover"
     ++ repeat 0 12).

(** * Properties *)

(** ** Text and memory *)

Lemma cstr_app_nul (l t : list Z) :
  Forall (fun c => c <> 0) l -> cstr (l ++ 0 :: t) = l.
Proof.
  induction 1 as [|c l Hc _ IH]; simpl; [reflexivity|].
  unfold nonzero. destruct (Z.eqb_spec c 0); [contradiction|].
  simpl. now rewrite IH.
Qed.

Lemma cstr_nonzero (a : list Z) : Forall (fun c => c <> 0) (cstr a).
Proof.
  induction a as [|c a IH]; simpl; [constructor|].
  unfold nonzero. destruct (Z.eqb_spec c 0); simpl; constructor; assumption.
Qed.

Lemma cstr_no_nul (a : list Z) : ~ In 0 (cstr a).
Proof.
  intros H. pose proof (cstr_nonzero a) as F.
  rewrite Forall_forall in F. now apply (F 0 H).
Qed.

Lemma cstr_fixed (l : list Z) : Forall (fun c => c <> 0) l -> cstr l = l.
Proof.
  induction 1 as [|c l Hc _ IH]; simpl; [reflexivity|].
  unfold nonzero. destruct (Z.eqb_spec c 0); [contradiction|].
  simpl. now rewrite IH.
Qed.

Lemma cstr_firstn (n : nat) (a : list Z) :
  cstr (firstn n a) = firstn n (cstr a).
Proof.
  revert a. induction n as [|n IH]; intros [|c a]; simpl; try reflexivity.
  destruct (nonzero c); simpl; [now rewrite IH | reflexivity].
Qed.

Lemma cstr_length (a : list Z) : (length (cstr a) <= length a)%nat.
Proof.
  induction a as [|c a IH]; simpl; [lia|].
  destruct (nonzero c); simpl; lia.
Qed.

Lemma cstr_app_zeros (l : list Z) (k : nat) (t : list Z) :
  Forall (fun c => c <> 0) l -> cstr (l ++ repeat 0 k ++ 0 :: t) = l.
Proof.
  intros H. destruct k; simpl; [now apply cstr_app_nul|].
  now apply cstr_app_nul.
Qed.

Lemma firstn_nonzero (n : nat) (l : list Z) :
  Forall (fun c => c <> 0) l -> Forall (fun c => c <> 0) (firstn n l).
Proof.
  intros H. revert n.
  induction H as [|c l Hc _ IH]; intros [|n]; simpl; constructor; auto.
Qed.

Lemma strncpy_bytes_padded (n : nat) (src : list Z) :
  strncpy_bytes n src = nul_padded n (cstr src).
Proof. unfold strncpy_bytes, nul_padded. now rewrite cstr_firstn. Qed.

Lemma nul_padded_length (n : nat) (text : list Z) :
  length (nul_padded n text) = n.
Proof.
  unfold nul_padded. rewrite length_app, repeat_length.
  pose proof (firstn_le_length n text). lia.
Qed.

Lemma strncpy_bytes_length (n : nat) (src : list Z) :
  length (strncpy_bytes n src) = n.
Proof. rewrite strncpy_bytes_padded. apply nul_padded_length. Qed.

(** The text read back from a slot that [strncpy] filled and that a NUL
    follows: the leading [n] characters of the source text. *)
Lemma cstr_strncpy_bytes (n : nat) (src t : list Z) :
  cstr (strncpy_bytes n src ++ 0 :: t) = firstn n (cstr src).
Proof.
  rewrite strncpy_bytes_padded. unfold nul_padded. rewrite <- app_assoc.
  apply cstr_app_zeros, firstn_nonzero, cstr_nonzero.
Qed.

(** A struct array after [memcpy(a, chunk, n); a[n] = '\0']. *)
Lemma array_store (chunk old : list Z) (n : nat) :
  length chunk = n ->
  poke (write_at 0 chunk old) n 0 = chunk ++ 0 :: skipn (S n) old.
Proof.
  intros <-. unfold poke, write_at. simpl.
  rewrite firstn_app, firstn_all, Nat.sub_diag. simpl. rewrite app_nil_r.
  f_equal. f_equal.
  rewrite skipn_app, skipn_skipn.
  rewrite (skipn_all2 chunk) by lia.
  replace (length chunk + 1 - length chunk + length chunk)%nat
    with (S (length chunk)) by lia.
  reflexivity.
Qed.

(** ** Integers on the wire *)

Lemma u8_byte (b : Z) : is_byte b -> u8 b = b.
Proof. unfold is_byte, u8. intros H. apply Z.mod_small. lia. Qed.

Lemma u8_is_byte (x : Z) : is_byte (u8 x).
Proof. unfold is_byte, u8. pose proof (Z.mod_pos_bound x (2 ^ 8)). lia. Qed.

Lemma to_char_is_byte (x : Z) : is_byte (to_char x).
Proof. apply u8_is_byte. Qed.

(** [(char)((x >> k) & 0xFF)] is the byte of weight [2 ^ k]. *)
Lemma byte_at (x k : Z) :
  0 <= k -> to_char (Z.land (Z.shiftr x k) 255) = (x / 2 ^ k) mod 256.
Proof.
  intros Hk. unfold to_char. change 255 with (Z.ones 8).
  rewrite Z.land_ones, Z.shiftr_div_pow2 by lia.
  change (2 ^ 8) with 256. apply Z.mod_mod. lia.
Qed.

Lemma byte_low (x : Z) : to_char (Z.land x 255) = x mod 256.
Proof.
  unfold to_char. change 255 with (Z.ones 8).
  rewrite Z.land_ones by lia.
  change (2 ^ 8) with 256. apply Z.mod_mod. lia.
Qed.

(** Bits that do not overlap: [|] adds. *)
Lemma lor_add (x y k : Z) :
  0 <= k -> x mod 2 ^ k = 0 -> 0 <= y < 2 ^ k -> Z.lor x y = x + y.
Proof.
  intros Hk Hx Hy.
  rewrite <- (Z.add_lor_land x y).
  assert (Z.land x y = 0) as ->; [|lia].
  apply Z.bits_inj'. intros n Hn.
  rewrite Z.land_spec, Z.bits_0.
  destruct (Z.lt_ge_cases n k) as [Hlt|Hge].
  - assert (Z.testbit x n = false) as ->; [|reflexivity].
    rewrite <- (Z.mod_pow2_bits_low x k n) by lia.
    rewrite Hx. apply Z.bits_0.
  - assert (Z.testbit y n = false) as ->; [|apply andb_false_r].
    rewrite <- (Z.mod_small y (2 ^ k)) by lia.
    apply Z.mod_pow2_bits_high. lia.
Qed.

(** The reassembly of a 16-bit field by the decoders. *)
Lemma be16_value (a b : Z) :
  is_byte a -> is_byte b -> u16 (Z.lor (Z.shiftl a 8) b) = a * 256 + b.
Proof.
  unfold is_byte, u16. intros Ha Hb.
  rewrite Z.shiftl_mul_pow2 by lia.
  rewrite (lor_add _ _ 8); try lia.
  - apply Z.mod_small. lia.
  - apply Z.mod_mul. lia.
Qed.

(** The reassembly of the 64-bit timestamp by the C decoder. *)
Lemma be64_value (b0 b1 b2 b3 b4 b5 b6 b7 : Z) :
  is_byte b0 -> is_byte b1 -> is_byte b2 -> is_byte b3 ->
  is_byte b4 -> is_byte b5 -> is_byte b6 -> is_byte b7 ->
  Z.lor (Z.lor (Z.lor (Z.lor (Z.lor (Z.lor (Z.lor (Z.lor 0
    (u64 (Z.shiftl b0 56))) (u64 (Z.shiftl b1 48))) (u64 (Z.shiftl b2 40)))
    (u64 (Z.shiftl b3 32))) (u64 (Z.shiftl b4 24))) (u64 (Z.shiftl b5 16)))
    (u64 (Z.shiftl b6 8))) (u64 b7)
  = b0 * 2 ^ 56 + b1 * 2 ^ 48 + b2 * 2 ^ 40 + b3 * 2 ^ 32
    + b4 * 2 ^ 24 + b5 * 2 ^ 16 + b6 * 2 ^ 8 + b7.
Proof.
  unfold is_byte, u64. intros H0 H1 H2 H3 H4 H5 H6 H7.
  rewrite !Z.shiftl_mul_pow2 by lia.
  rewrite Z.lor_0_l.
  rewrite !Z.mod_small by lia.
  assert (forall x y k, 0 <= k -> (exists q, x = q * 2 ^ k) -> 0 <= y < 2 ^ k ->
                        Z.lor x y = x + y) as step.
  { intros x y k Hk [q ->] Hy. apply (lor_add _ _ k); auto.
    apply Z.mod_mul. lia. }
  rewrite (step (b0 * 2 ^ 56) _ 56) by (try (eexists; reflexivity); lia).
  rewrite (step (_ + b1 * 2 ^ 48) _ 48);
    [| lia | exists (b0 * 2 ^ 8 + b1); lia | lia].
  rewrite (step (_ + b2 * 2 ^ 40) _ 40);
    [| lia | exists (b0 * 2 ^ 16 + b1 * 2 ^ 8 + b2); lia | lia].
  rewrite (step (_ + b3 * 2 ^ 32) _ 32);
    [| lia | exists (b0 * 2 ^ 24 + b1 * 2 ^ 16 + b2 * 2 ^ 8 + b3); lia | lia].
  rewrite (step (_ + b4 * 2 ^ 24) _ 24);
    [| lia
     | exists (b0 * 2 ^ 32 + b1 * 2 ^ 24 + b2 * 2 ^ 16 + b3 * 2 ^ 8 + b4); lia
     | lia].
  rewrite (step (_ + b5 * 2 ^ 16) _ 16);
    [| lia
     | exists (b0 * 2 ^ 40 + b1 * 2 ^ 32 + b2 * 2 ^ 24 + b3 * 2 ^ 16
               + b4 * 2 ^ 8 + b5); lia
     | lia].
  rewrite (step (_ + b6 * 2 ^ 8) _ 8);
    [| lia
     | exists (b0 * 2 ^ 48 + b1 * 2 ^ 40 + b2 * 2 ^ 32 + b3 * 2 ^ 24
               + b4 * 2 ^ 16 + b5 * 2 ^ 8 + b6); lia
     | lia].
  reflexivity.
Qed.

(** A 16-bit field survives the encoder followed by the decoder. *)
Lemma be16_roundtrip (x : Z) :
  0 <= x < 2 ^ 16 ->
  u16 (Z.lor (Z.shiftl (u8 (to_char (Z.land (Z.shiftr x 8) 255))) 8)
             (u8 (to_char (Z.land x 255)))) = x.
Proof.
  intros Hx. rewrite !(u8_byte (to_char _)) by apply to_char_is_byte.
  rewrite be16_value by apply to_char_is_byte.
  rewrite byte_at, byte_low by lia.
  change (2 ^ 8) with 256. change (2 ^ 16) with 65536 in Hx.
  Z.div_mod_to_equations. lia.
Qed.

(** Two bytes survive the decoder followed by the encoder. *)
Lemma be16_bytes (a b : Z) :
  is_byte a -> is_byte b ->
  let x := u16 (Z.lor (Z.shiftl (u8 a) 8) (u8 b)) in
  to_char (Z.land (Z.shiftr x 8) 255) = a /\ to_char (Z.land x 255) = b.
Proof.
  intros Ha Hb x. subst x. rewrite (u8_byte a), (u8_byte b) by assumption.
  rewrite be16_value by assumption.
  rewrite byte_at, byte_low by lia. change (2 ^ 8) with 256.
  unfold is_byte in *. split; Z.div_mod_to_equations; lia.
Qed.

(** The timestamp survives the encoder followed by the decoder. *)
Lemma be64_roundtrip (d : Z) :
  0 <= d < 2 ^ 64 ->
  Z.lor (Z.lor (Z.lor (Z.lor (Z.lor (Z.lor (Z.lor (Z.lor 0
    (u64 (Z.shiftl (u8 (to_char (Z.land (Z.shiftr d 56) 255))) 56)))
    (u64 (Z.shiftl (u8 (to_char (Z.land (Z.shiftr d 48) 255))) 48)))
    (u64 (Z.shiftl (u8 (to_char (Z.land (Z.shiftr d 40) 255))) 40)))
    (u64 (Z.shiftl (u8 (to_char (Z.land (Z.shiftr d 32) 255))) 32)))
    (u64 (Z.shiftl (u8 (to_char (Z.land (Z.shiftr d 24) 255))) 24)))
    (u64 (Z.shiftl (u8 (to_char (Z.land (Z.shiftr d 16) 255))) 16)))
    (u64 (Z.shiftl (u8 (to_char (Z.land (Z.shiftr d 8) 255))) 8)))
    (u64 (u8 (to_char (Z.land d 255)))) = d.
Proof.
  intros Hd. rewrite !(u8_byte (to_char _)) by apply to_char_is_byte.
  rewrite be64_value by apply to_char_is_byte.
  rewrite !byte_at, byte_low by lia.
  change (2 ^ 56) with 72057594037927936.
  change (2 ^ 48) with 281474976710656.
  change (2 ^ 40) with 1099511627776.
  change (2 ^ 32) with 4294967296.
  change (2 ^ 24) with 16777216.
  change (2 ^ 16) with 65536.
  change (2 ^ 8) with 256.
  change (2 ^ 64) with 18446744073709551616 in Hd.
  Z.div_mod_to_equations. lia.
Qed.

(** Eight bytes survive the decoder followed by the encoder. *)
Lemma be64_bytes (b0 b1 b2 b3 b4 b5 b6 b7 : Z) :
  is_byte b0 -> is_byte b1 -> is_byte b2 -> is_byte b3 ->
  is_byte b4 -> is_byte b5 -> is_byte b6 -> is_byte b7 ->
  let d :=
    Z.lor (Z.lor (Z.lor (Z.lor (Z.lor (Z.lor (Z.lor (Z.lor 0
      (u64 (Z.shiftl (u8 b0) 56))) (u64 (Z.shiftl (u8 b1) 48)))
      (u64 (Z.shiftl (u8 b2) 40))) (u64 (Z.shiftl (u8 b3) 32)))
      (u64 (Z.shiftl (u8 b4) 24))) (u64 (Z.shiftl (u8 b5) 16)))
      (u64 (Z.shiftl (u8 b6) 8))) (u64 (u8 b7)) in
  [to_char (Z.land (Z.shiftr d 56) 255); to_char (Z.land (Z.shiftr d 48) 255);
   to_char (Z.land (Z.shiftr d 40) 255); to_char (Z.land (Z.shiftr d 32) 255);
   to_char (Z.land (Z.shiftr d 24) 255); to_char (Z.land (Z.shiftr d 16) 255);
   to_char (Z.land (Z.shiftr d 8) 255); to_char (Z.land d 255)]
  = [b0; b1; b2; b3; b4; b5; b6; b7].
Proof.
  intros H0 H1 H2 H3 H4 H5 H6 H7 d. subst d.
  rewrite (u8_byte b0), (u8_byte b1), (u8_byte b2), (u8_byte b3),
    (u8_byte b4), (u8_byte b5), (u8_byte b6), (u8_byte b7) by assumption.
  rewrite be64_value by assumption.
  rewrite !byte_at, byte_low by lia.
  unfold is_byte in *.
  change (2 ^ 56) with 72057594037927936.
  change (2 ^ 48) with 281474976710656.
  change (2 ^ 40) with 1099511627776.
  change (2 ^ 32) with 4294967296.
  change (2 ^ 24) with 16777216.
  change (2 ^ 16) with 65536.
  change (2 ^ 8) with 256.
  repeat f_equal; Z.div_mod_to_equations; lia.
Qed.

(** ** The encoder *)

Lemma length_S_inv (l : list Z) (n : nat) :
  length l = S n -> exists c l', l = c :: l' /\ length l' = n.
Proof. destruct l as [|c l']; simpl; [discriminate|]. eauto. Qed.

(** A list of known length, cell by cell. *)
Ltac cells H :=
  repeat (apply length_S_inv in H; destruct H as (? & ? & -> & H));
  apply length_zero_iff_nil in H; subst.

Lemma split_at (n : nat) (l : list Z) :
  (n <= length l)%nat ->
  exists hd tl, l = hd ++ tl /\ length hd = n /\ tl = skipn n l.
Proof.
  intros H. exists (firstn n l), (skipn n l).
  rewrite firstn_skipn, length_firstn. repeat split; lia.
Qed.

(** The bytes the encoder stores, as the code computes them. *)
Lemma encode_bytes (v : prodVersion_t) (buf : list Z) :
  (64 <= length buf)%nat ->
  prodVersionEncodeBytes (Some buf) (Some v) =
  (64%nat,
   Some ([PRODVER_STRUCTVER]
         ++ strncpy_bytes 24 (product v)
         ++ [to_char (Z.land (Z.shiftr (major v) 8) 255);
             to_char (Z.land (major v) 255);
             to_char (Z.land (Z.shiftr (minor v) 8) 255);
             to_char (Z.land (minor v) 255);
             to_char (Z.land (Z.shiftr (patch v) 8) 255);
             to_char (Z.land (patch v) 255);
             to_char (Z.land (Z.shiftr (build v) 8) 255);
             to_char (Z.land (build v) 255);
             char_of_enum (releaseChannel v)]
         ++ strncpy_bytes 15 (metadata v)
         ++ strncpy_bytes 7 (commitHash v)
         ++ [to_char (Z.land (Z.shiftr (date v) 56) 255);
             to_char (Z.land (Z.shiftr (date v) 48) 255);
             to_char (Z.land (Z.shiftr (date v) 40) 255);
             to_char (Z.land (Z.shiftr (date v) 32) 255);
             to_char (Z.land (Z.shiftr (date v) 24) 255);
             to_char (Z.land (Z.shiftr (date v) 16) 255);
             to_char (Z.land (Z.shiftr (date v) 8) 255);
             to_char (Z.land (date v) 255)]
         ++ skipn 64 buf)).
Proof.
  intros Hlen.
  destruct (split_at 64 buf Hlen) as (hd & tl & -> & Hhd & Htl).
  rewrite <- Htl. clear Htl Hlen.
  unfold prodVersionEncodeBytes, strncpy, memset, poke,
    PRODVER_PRODUCT_LEN, PRODVER_METADATA_LEN, PRODVER_COMMIT_LEN,
    PRODVER_ENCODED_LEN.
  pose proof (strncpy_bytes_length 24 (product v)) as Hp.
  pose proof (strncpy_bytes_length 15 (metadata v)) as Hm.
  pose proof (strncpy_bytes_length 7 (commitHash v)) as Hc.
  generalize dependent (strncpy_bytes 24 (product v)).
  generalize dependent (strncpy_bytes 15 (metadata v)).
  generalize dependent (strncpy_bytes 7 (commitHash v)).
  intros fc Hc fm Hm fp Hp.
  cells Hhd. cells Hp. cells Hm. cells Hc.
  reflexivity.
Qed.

Lemma big_endian_2 (x : Z) :
  big_endian 2 x = [(x / 2 ^ 8) mod 256; x mod 256].
Proof. cbn [big_endian]. change (256 ^ Z.of_nat 1) with (2 ^ 8).
  change (256 ^ Z.of_nat 0) with 1. now rewrite Z.div_1_r. Qed.

Lemma big_endian_8 (x : Z) :
  big_endian 8 x =
  [(x / 2 ^ 56) mod 256; (x / 2 ^ 48) mod 256; (x / 2 ^ 40) mod 256;
   (x / 2 ^ 32) mod 256; (x / 2 ^ 24) mod 256; (x / 2 ^ 16) mod 256;
   (x / 2 ^ 8) mod 256; x mod 256].
Proof. cbn [big_endian]. change (256 ^ Z.of_nat 0) with 1.
  now rewrite Z.div_1_r. Qed.

Lemma fold_big_endian (n : nat) (x acc : Z) :
  fold_left (fun a b => a * 256 + b) (big_endian n x) acc
  = acc * 256 ^ Z.of_nat n + x mod 256 ^ Z.of_nat n.
Proof.
  revert acc. induction n as [|n IH]; intros acc.
  - simpl. rewrite Z.mod_1_r. lia.
  - cbn [big_endian fold_left]. rewrite IH.
    rewrite Nat2Z.inj_succ, Z.pow_succ_r by lia.
    assert (0 < 256 ^ Z.of_nat n) as Hpos by (apply Z.pow_pos_nonneg; lia).
    rewrite (Z.mul_comm 256 (256 ^ Z.of_nat n)).
    rewrite (Z.rem_mul_r x (256 ^ Z.of_nat n) 256) by lia.
    lia.
Qed.

(** [big_endian n] is the representation on [n] bytes: it denotes the
    integer it was made from. *)
Lemma big_endian_value (n : nat) (x : Z) :
  0 <= x < 256 ^ Z.of_nat n -> be_value (big_endian n x) = x.
Proof.
  intros H. unfold be_value.
  rewrite fold_big_endian, Z.mod_small by assumption. lia.
Qed.

Lemma wire_format_length (v : prodVersion_t) : length (wire_format v) = 64%nat.
Proof.
  unfold wire_format. rewrite !length_app, !nul_padded_length. reflexivity.
Qed.

(** The encoder stores the wire format in the first 64 bytes and nothing
    else. *)
Lemma encode_wire (v : prodVersion_t) (buf : list Z) :
  (64 <= length buf)%nat ->
  prodVersionEncodeBytes (Some buf) (Some v) =
  (64%nat, Some (wire_format v ++ skipn 64 buf)).
Proof.
  intros H. rewrite (encode_bytes v buf H). unfold wire_format.
  rewrite !big_endian_2, big_endian_8, !strncpy_bytes_padded.
  rewrite !byte_at, !byte_low by lia.
  unfold char_of_enum, to_char, PRODVER_STRUCTVER. change (2 ^ 8) with 256.
  rewrite <- !app_assoc. reflexivity.
Qed.

Lemma encode_short (v : prodVersion_t) (buf : list Z) :
  (length buf < 64)%nat ->
  prodVersionEncodeBytes (Some buf) (Some v) = (0%nat, Some buf).
Proof.
  intros H. unfold prodVersionEncodeBytes, PRODVER_ENCODED_LEN.
  apply Nat.ltb_lt in H. now rewrite H.
Qed.


(** What is read back from the first 64 bytes after the encoder ran. *)
Lemma wire_reads (v : prodVersion_t) (tl : list Z) :
  let out := wire_format v ++ tl in
  nth 0 out 0 = 1 /\
  firstn 24 (skipn 1 out) = nul_padded 24 (cstr (product v)) /\
  firstn 2 (skipn 25 out) = big_endian 2 (major v) /\
  firstn 2 (skipn 27 out) = big_endian 2 (minor v) /\
  firstn 2 (skipn 29 out) = big_endian 2 (patch v) /\
  firstn 2 (skipn 31 out) = big_endian 2 (build v) /\
  nth 33 out 0 = releaseChannel v mod 256 /\
  firstn 15 (skipn 34 out) = nul_padded 15 (cstr (metadata v)) /\
  firstn 7 (skipn 49 out) = nul_padded 7 (cstr (commitHash v)) /\
  firstn 8 (skipn 56 out) = big_endian 8 (date v) /\
  firstn 64 out = wire_format v /\
  skipn 64 out = tl.
Proof.
  unfold wire_format.
  pose proof (nul_padded_length 24 (cstr (product v))) as Hp.
  pose proof (nul_padded_length 15 (cstr (metadata v))) as Hm.
  pose proof (nul_padded_length 7 (cstr (commitHash v))) as Hc.
  generalize dependent (nul_padded 24 (cstr (product v))).
  generalize dependent (nul_padded 15 (cstr (metadata v))).
  generalize dependent (nul_padded 7 (cstr (commitHash v))).
  intros fc Hc fm Hm fp Hp.
  cells Hp. cells Hm. cells Hc.
  repeat split; reflexivity.
Qed.

Lemma pair_read (l : list Z) (k : nat) (a b : Z) :
  firstn 2 (skipn k l) = [a; b] -> nth k l 0 = a /\ nth (S k) l 0 = b.
Proof.
  intros H.
  pose proof (nth_firstn 2 (skipn k l) 0 0) as H0.
  pose proof (nth_firstn 2 (skipn k l) 1 0) as H1.
  rewrite H, nth_skipn in H0, H1. simpl in H0, H1.
  rewrite Nat.add_0_r in H0. rewrite Nat.add_1_r in H1. auto.
Qed.

(** C7: for every record and every destination buffer the encoder either
    returns 0 and leaves the buffer alone, which happens exactly when the
    buffer has fewer than 64 bytes, or returns 64 having stored exactly the
    64 bytes of the wire format in front of the untouched rest of the
    buffer; the content of the record never makes it fail. *)
Theorem C7_encode_total (v : prodVersion_t) (buf : list Z) :
  prodVersionEncodeBytes (Some buf) (Some v) =
    (if (length buf <? 64)%nat
     then (0%nat, Some buf)
     else (64%nat, Some (wire_format v ++ skipn 64 buf)))
  /\ length (wire_format v) = 64%nat
  /\ (fst (prodVersionEncodeBytes (Some buf) (Some v)) = 0%nat
      <-> (length buf < 64)%nat)
  /\ (fst (prodVersionEncodeBytes (Some buf) (Some v)) = 64%nat
      <-> (64 <= length buf)%nat)
  /\ (forall out, snd (prodVersionEncodeBytes (Some buf) (Some v)) = Some out ->
      length out = length buf).
Proof.
  pose proof (wire_format_length v) as Hw.
  destruct (Nat.ltb_spec (length buf) 64) as [H|H].
  - rewrite (encode_short v buf H). cbn [fst snd].
    split; [reflexivity|]. split; [exact Hw|].
    split; [split; auto|]. split; [split; [discriminate|lia]|].
    intros out [= <-]. reflexivity.
  - rewrite (encode_wire v buf H). cbn [fst snd].
    split; [reflexivity|]. split; [exact Hw|].
    split; [split; [discriminate|lia]|]. split; [split; auto|].
    intros out E.
    assert (out = wire_format v ++ skipn 64 buf) as -> by congruence.
    rewrite length_app, length_skipn, Hw. lia.
Qed.

(** C2: the encoder writes the layout of the wire format: the tag 1 at
    offset 0, every 16-bit integer most significant byte first at offsets
    25, 27, 29 and 31, the timestamp most significant byte first at offsets
    56 to 63; a major of 0x0102 puts 0x01 at offset 25 and 0x02 at 26. *)
Theorem C2_layout (v : prodVersion_t) (buf : list Z) :
  (64 <= length buf)%nat ->
  exists out,
    prodVersionEncodeBytes (Some buf) (Some v) = (64%nat, Some out) /\
    firstn 64 out = wire_format v /\
    nth 0 out 0 = 1 /\
    firstn 2 (skipn 25 out) = [(major v / 256) mod 256; major v mod 256] /\
    firstn 2 (skipn 27 out) = [(minor v / 256) mod 256; minor v mod 256] /\
    firstn 2 (skipn 29 out) = [(patch v / 256) mod 256; patch v mod 256] /\
    firstn 2 (skipn 31 out) = [(build v / 256) mod 256; build v mod 256] /\
    firstn 8 (skipn 56 out) = big_endian 8 (date v) /\
    (nth 25 out 0 = (major v / 256) mod 256 /\ nth 26 out 0 = major v mod 256) /\
    (major v = 258 -> nth 25 out 0 = 1 /\ nth 26 out 0 = 2).
Proof.
  intros H. exists (wire_format v ++ skipn 64 buf).
  split; [apply encode_wire, H|].
  destruct (wire_reads v (skipn 64 buf))
    as (Ht & _ & Hma & Hmi & Hpa & Hbu & _ & _ & _ & Hd & Hw & _).
  rewrite big_endian_2 in Hma, Hmi, Hpa, Hbu. change (2 ^ 8) with 256 in *.
  destruct (pair_read _ _ _ _ Hma) as [H25 H26].
  repeat (split; [assumption|]).
  split; [split; assumption|].
  intros E. rewrite H25, H26, E. split; reflexivity.
Qed.

(** ** The C# decoder: its two guards *)

Lemma Decode_wrong_length (buffer : list Z) :
  length buffer <> 64%nat ->
  VersionInfo.Decode (Some buffer) =
  VersionInfo.Returned false VersionInfo.new_VersionInfo.
Proof.
  intros H. unfold VersionInfo.Decode.
  destruct (Nat.eqb_spec (length buffer) 64); [contradiction|reflexivity].
Qed.

Lemma Decode_bad_version (buffer : list Z) :
  length buffer = 64%nat -> nth 0 buffer 0 <> 1 ->
  VersionInfo.Decode (Some buffer) =
  VersionInfo.Thrown_NotImplementedException
    (bytes_of_string "Unsupported structure version: "
     ++ fmt_u (nth 0 buffer 0))
    VersionInfo.new_VersionInfo.
Proof.
  intros Hlen H. unfold VersionInfo.Decode. rewrite Hlen.
  cbn [Nat.eqb negb].
  destruct (Z.eqb_spec (nth 0 buffer 0) 1); [contradiction|reflexivity].
Qed.

(** A call that does not return [true] leaves the blank record in the
    [out] parameter. *)
Lemma Decode_failure_blank (buffer : option (list Z)) :
  match VersionInfo.Decode buffer with
  | VersionInfo.Returned true _ => True
  | VersionInfo.Returned false version => version = VersionInfo.new_VersionInfo
  | VersionInfo.Thrown_NotImplementedException _ version =>
      version = VersionInfo.new_VersionInfo
  end.
Proof.
  unfold VersionInfo.Decode. destruct buffer as [buffer|]; [|reflexivity].
  destruct (negb (length buffer =? 64)%nat); [reflexivity|].
  destruct (negb (nth 0 buffer 0 =? 1)); [reflexivity|exact I].
Qed.

(** ** The formatter *)

Lemma poke_first (str : list Z) (c : Z) :
  str <> [] -> poke str 0 c = c :: skipn 1 str.
Proof. destruct str; [contradiction|reflexivity]. Qed.

Lemma c_string_defined (a : list Z) : In 0 a -> c_string a = Some (cstr a).
Proof.
  intros H. unfold c_string.
  assert (existsb (Z.eqb 0) a = true) as ->; [|reflexivity].
  apply existsb_exists. exists 0. split; [exact H|reflexivity].
Qed.

(** The rendering of a record whose arrays hold C strings is defined. *)
Lemma rendered_defined (v : prodVersion_t) :
  terminated v -> exists text, rendered v = Some text.
Proof.
  intros (Hp & Hm & Hc). unfold rendered.
  rewrite (c_string_defined _ Hp), (c_string_defined _ Hm),
    (c_string_defined _ Hc).
  destruct (nonzero (nth 0 (product v) 0));
    destruct (negb (releaseChannel v =? VERSION_CHANNEL_RELEASE)); eauto.
Qed.

(** A rendering is never empty: it ends with the [%c] of the build. *)
Lemma rendered_nonempty (v : prodVersion_t) (text : list Z) :
  rendered v = Some text -> (1 <= length text)%nat.
Proof.
  unfold rendered.
  destruct (if nonzero (nth 0 (product v) 0) then _ else _); [|discriminate].
  destruct (c_string (metadata v)); [|discriminate].
  destruct (if negb _ then c_string _ else _); [|discriminate].
  intros [= <-]. rewrite !length_app. simpl. lia.
Qed.

Lemma write_at_length (off : nat) (src dst : list Z) :
  (off + length src <= length dst)%nat ->
  length (write_at off src dst) = length dst.
Proof.
  intros H. unfold write_at.
  rewrite !length_app, length_firstn, length_skipn. lia.
Qed.

Lemma cstr_poke_nul (str : list Z) : cstr (poke str 0 0) = [].
Proof. reflexivity. Qed.

Lemma poke_length (str : list Z) :
  str <> [] -> length (poke str 0 0) = length str.
Proof. destruct str; [contradiction|]. reflexivity. Qed.

(** The rendering fits: it is stored with its terminator and its length is
    returned. *)
Lemma toString_fits (v : prodVersion_t) (str text : list Z) :
  rendered v = Some text ->
  (length text < length str)%nat -> Z.of_nat (length text) <= INT_MAX ->
  prodVersionToString (Some v) (Some str) =
  Some (length text, Some (text ++ 0 :: skipn (S (length text)) str)).
Proof.
  intros Ht Hfit Hint. pose proof (rendered_nonempty v text Ht) as Hne.
  unfold prodVersionToString. rewrite Ht.
  destruct (Nat.eqb_spec (length str) 0) as [E|_]; [lia|].
  destruct (Nat.ltb_spec (length str) 2) as [E|_]; [lia|].
  unfold snprintf.
  destruct (Z.leb_spec (Z.of_nat (length text)) INT_MAX) as [_|E]; [|lia].
  destruct (length str) as [|k] eqn:Ek; [lia|].
  assert ((Z.of_nat (length text) <? 0) = false) as -> by (apply Z.ltb_ge; lia).
  assert ((Z.of_nat (S k) <=? Z.of_nat (length text)) = false)
    as -> by (apply Z.leb_gt; lia).
  cbn [orb]. rewrite Nat2Z.id. unfold write_at.
  rewrite (@firstn_all2 _ k text) by lia. cbn [firstn app Nat.add].
  rewrite <- app_assoc, length_app. cbn [app length].
  rewrite Nat.add_1_r. reflexivity.
Qed.

(** The rendering does not fit: the buffer holds the empty string and 0 is
    returned. *)
Lemma toString_fails (v : prodVersion_t) (str text : list Z) :
  rendered v = Some text ->
  (length str <= length text)%nat \/ INT_MAX < Z.of_nat (length text) ->
  exists out,
    prodVersionToString (Some v) (Some str) = Some (0%nat, Some out) /\
    length out = length str /\ cstr out = [].
Proof.
  intros Ht Hno. pose proof (rendered_nonempty v text Ht) as Hne.
  unfold prodVersionToString. rewrite Ht.
  destruct (Nat.eqb_spec (length str) 0) as [E|E0].
  { exists str. apply length_zero_iff_nil in E. subst str. auto. }
  assert (str <> []) as Hstr by (intros ->; apply E0; reflexivity).
  destruct (Nat.ltb_spec (length str) 2) as [E|E2].
  { exists (poke str 0 0). auto using poke_length, cstr_poke_nul. }
  unfold snprintf.
  destruct (length str) as [|k] eqn:Ek; [lia|].
  assert (((if Z.of_nat (length text) <=? INT_MAX
            then Z.of_nat (length text) else -1) <? 0)
          || (Z.of_nat (S k) <=?
              (if Z.of_nat (length text) <=? INT_MAX
               then Z.of_nat (length text) else -1)) = true) as ->.
  { destruct (Z.leb_spec (Z.of_nat (length text)) INT_MAX) as [Hi|Hi].
    - apply orb_true_iff. right. apply Z.leb_le. lia.
    - reflexivity. }
  eexists. split; [reflexivity|]. split; [|apply cstr_poke_nul].
  assert (length (write_at 0 (firstn k text ++ [0]) str) = length str) as Hl.
  { apply write_at_length. rewrite length_app, length_firstn. simpl. lia. }
  rewrite poke_length; [lia|].
  intros E. rewrite E in Hl. simpl in Hl. lia.
Qed.

Lemma cstr_app_le (l t : list Z) :
  (length (cstr (l ++ 0%Z :: t)) <= length l)%nat.
Proof.
  induction l as [|c l IH]; simpl; [lia|].
  destruct (nonzero c); simpl; lia.
Qed.

(** C8: the formatter writes inside the caller's buffer only, the string it
    leaves there is shorter than the buffer, and when the rendering and its
    terminator do not fit in the buffer the result is the empty string and
    the value returned is 0; nothing truncated is reported. *)
Theorem C8_formatter_bounded (v : prodVersion_t) (str : list Z) :
  terminated v ->
  exists text n out,
    rendered v = Some text /\
    prodVersionToString (Some v) (Some str) = Some (n, Some out) /\
    length out = length str /\
    (length (cstr out) <= n)%nat /\
    ((n < length str)%nat \/ (n = 0%nat /\ str = [])) /\
    ((length str <= length text)%nat -> n = 0%nat /\ cstr out = []) /\
    ((length text < length str)%nat -> Z.of_nat (length text) <= INT_MAX ->
     n = length text /\ firstn (S n) out = text ++ [0]).
Proof.
  intros Hterm. destruct (rendered_defined v Hterm) as [text Ht].
  exists text.
  destruct (Nat.le_gt_cases (length str) (length text)) as [Hno|Hfit].
  - destruct (toString_fails v str text Ht (or_introl Hno))
      as (out & E & Hlen & Hemp).
    exists 0%nat, out. rewrite Hemp.
    split; [assumption|]. split; [assumption|]. split; [assumption|].
    split; [simpl; lia|]. split.
    + destruct str as [|c str]; [right; auto|left; simpl; lia].
    + split; [auto|lia].
  - destruct (Z.le_gt_cases (Z.of_nat (length text)) INT_MAX) as [Hi|Hi].
    + exists (length text), (text ++ 0 :: skipn (S (length text)) str).
      split; [assumption|]. split; [now apply toString_fits|].
      split. { rewrite length_app. cbn [length]. rewrite length_skipn. lia. }
      split; [apply cstr_app_le|]. split; [left; lia|].
      split; [lia|]. intros _ _. split; [reflexivity|].
      rewrite firstn_app.
      replace (S (length text) - length text)%nat with 1%nat by lia.
      rewrite firstn_all2 by lia. reflexivity.
    + destruct (toString_fails v str text Ht (or_intror Hi))
        as (out & E & Hlen & Hemp).
      exists 0%nat, out. rewrite Hemp.
      split; [assumption|]. split; [assumption|]. split; [assumption|].
      split; [simpl; lia|]. split; [left; lia|]. split; [auto|lia].
Qed.

(** C9, as the code has it: for the example record the C# formatter appends
    the build number when it is not zero, so it renders
    "ACME 1.2.3r build 7" on the release channel and
    "ACME 1.2.3b (abc1234) build 7" on the beta channel, and renders
    "ACME 1.2.3r" and "ACME 1.2.3b (abc1234)" when the build number is 0; the
    text of the C formatter starts with "ACME 1.2.3r", respectively
    "ACME 1.2.3b (abc1234)", in every buffer of at least 32 bytes.  The commit
    reference is left out on the release channel. *)
Theorem C9_example_rendering :
  VersionInfo.ToString (acme_info VersionInfo.Release 7)
    = bytes_of_string "ACME 1.2.3r build 7" /\
  VersionInfo.ToString (acme_info VersionInfo.Beta 7)
    = bytes_of_string "ACME 1.2.3b (abc1234) build 7" /\
  VersionInfo.ToString (acme_info VersionInfo.Release 0)
    = bytes_of_string "ACME 1.2.3r" /\
  VersionInfo.ToString (acme_info VersionInfo.Beta 0)
    = bytes_of_string "ACME 1.2.3b (abc1234)" /\
  (forall (bld : Z) (str : list Z), (32 <= length str)%nat ->
   exists n out,
     prodVersionToString (Some (acme VERSION_CHANNEL_RELEASE bld)) (Some str)
       = Some (n, Some out) /\
     firstn 11 out = bytes_of_string "ACME 1.2.3r") /\
  (forall (bld : Z) (str : list Z), (32 <= length str)%nat ->
   exists n out,
     prodVersionToString (Some (acme VERSION_CHANNEL_BETA bld)) (Some str)
       = Some (n, Some out) /\
     firstn 21 out = bytes_of_string "ACME 1.2.3b (abc1234)").
Proof.
  repeat (split; [reflexivity|]).
  split; intros bld str Hlen.
  - assert (rendered (acme VERSION_CHANNEL_RELEASE bld)
            = Some (bytes_of_string "ACME 1.2.3r" ++ [to_char bld])) as Ht
      by reflexivity.
    eexists _, _. split.
    + apply (toString_fits _ _ _ Ht); [simpl; lia|].
      simpl. unfold INT_MAX. lia.
    + reflexivity.
  - assert (rendered (acme VERSION_CHANNEL_BETA bld)
            = Some (bytes_of_string "ACME 1.2.3b (abc1234)" ++ [to_char bld]))
      as Ht by reflexivity.
    eexists _, _. split.
    + apply (toString_fits _ _ _ Ht); [simpl; lia|].
      simpl. unfold INT_MAX. lia.
    + reflexivity.
Qed.
(** ** The decoder *)

Section Decoder.

Variable char_is_signed : bool.
Variable enum_is_signed : bool.

Local Abbreviation decode :=
  (prodVersionDecodeBytes char_is_signed enum_is_signed).
Local Abbreviation enum_of := (enum_of_char char_is_signed enum_is_signed).

(** What a successful decode stores, as the code computes it. *)
Lemma decode_fields (buf : list Z) (old : prodVersion_t) :
  (64 <= length buf)%nat -> u8 (nth 0 buf 0) = 1 ->
  decode (Some buf) (Some old) =
  (true, Some (mkProdVersion
    (firstn 24 (skipn 1 buf) ++ 0 :: skipn 25 (product old))
    (u16 (Z.lor (Z.shiftl (u8 (nth 25 buf 0)) 8) (u8 (nth 26 buf 0))))
    (u16 (Z.lor (Z.shiftl (u8 (nth 27 buf 0)) 8) (u8 (nth 28 buf 0))))
    (u16 (Z.lor (Z.shiftl (u8 (nth 29 buf 0)) 8) (u8 (nth 30 buf 0))))
    (u16 (Z.lor (Z.shiftl (u8 (nth 31 buf 0)) 8) (u8 (nth 32 buf 0))))
    (enum_of (nth 33 buf 0))
    (firstn 15 (skipn 34 buf) ++ 0 :: skipn 16 (metadata old))
    (firstn 7 (skipn 49 buf) ++ 0 :: skipn 8 (commitHash old))
    (Z.lor (Z.lor (Z.lor (Z.lor (Z.lor (Z.lor (Z.lor (Z.lor 0
       (u64 (Z.shiftl (u8 (nth 56 buf 0)) 56)))
       (u64 (Z.shiftl (u8 (nth 57 buf 0)) 48)))
       (u64 (Z.shiftl (u8 (nth 58 buf 0)) 40)))
       (u64 (Z.shiftl (u8 (nth 59 buf 0)) 32)))
       (u64 (Z.shiftl (u8 (nth 60 buf 0)) 24)))
       (u64 (Z.shiftl (u8 (nth 61 buf 0)) 16)))
       (u64 (Z.shiftl (u8 (nth 62 buf 0)) 8)))
       (u64 (u8 (nth 63 buf 0)))))).
Proof.
  intros Hlen Htag. destruct old as [p ma mi pa bu ch me co da].
  unfold prodVersionDecodeBytes, PRODVER_ENCODED_LEN.
  assert ((length buf <? 64)%nat = false) as -> by (apply Nat.ltb_ge; lia).
  rewrite Htag.
  cbv beta iota zeta delta
    [negb Z.eqb Pos.eqb PRODVER_STRUCTVER PRODVER_PRODUCT_LEN
     PRODVER_METADATA_LEN PRODVER_COMMIT_LEN memcpy
     set_product set_major set_minor set_patch set_build set_releaseChannel
     set_metadata set_commitHash set_date
     product major minor patch build releaseChannel metadata commitHash date
     Nat.add].
  rewrite !array_store; [reflexivity | | | ];
    rewrite length_firstn, length_skipn; lia.
Qed.

Lemma decode_short (buf : list Z) (old : prodVersion_t) :
  (length buf < 64)%nat -> decode (Some buf) (Some old) = (false, Some old).
Proof.
  intros H. unfold prodVersionDecodeBytes, PRODVER_ENCODED_LEN.
  apply Nat.ltb_lt in H. now rewrite H.
Qed.

Lemma decode_bad_tag (buf : list Z) (old : prodVersion_t) :
  u8 (nth 0 buf 0) <> 1 -> decode (Some buf) (Some old) = (false, Some old).
Proof.
  intros H. unfold prodVersionDecodeBytes.
  destruct (length buf <? PRODVER_ENCODED_LEN)%nat; [reflexivity|].
  unfold PRODVER_STRUCTVER.
  destruct (Z.eqb_spec (u8 (nth 0 buf 0)) 1); [contradiction|reflexivity].
Qed.

(** The reads of the decoder in a buffer laid out field after field. *)
Lemma decode_layout (t a1 a2 b1 b2 c1 c2 d1 d2 ch e0 e1 e2 e3 e4 e5 e6 e7 : Z)
    (fp fm fc tl : list Z) (old : prodVersion_t) :
  length fp = 24%nat -> length fm = 15%nat -> length fc = 7%nat ->
  u8 t = 1 ->
  decode (Some ([t] ++ fp ++ [a1; a2; b1; b2; c1; c2; d1; d2; ch]
                ++ fm ++ fc ++ [e0; e1; e2; e3; e4; e5; e6; e7] ++ tl))
         (Some old) =
  (true, Some (mkProdVersion
    (fp ++ 0 :: skipn 25 (product old))
    (u16 (Z.lor (Z.shiftl (u8 a1) 8) (u8 a2)))
    (u16 (Z.lor (Z.shiftl (u8 b1) 8) (u8 b2)))
    (u16 (Z.lor (Z.shiftl (u8 c1) 8) (u8 c2)))
    (u16 (Z.lor (Z.shiftl (u8 d1) 8) (u8 d2)))
    (enum_of ch)
    (fm ++ 0 :: skipn 16 (metadata old))
    (fc ++ 0 :: skipn 8 (commitHash old))
    (Z.lor (Z.lor (Z.lor (Z.lor (Z.lor (Z.lor (Z.lor (Z.lor 0
       (u64 (Z.shiftl (u8 e0) 56))) (u64 (Z.shiftl (u8 e1) 48)))
       (u64 (Z.shiftl (u8 e2) 40))) (u64 (Z.shiftl (u8 e3) 32)))
       (u64 (Z.shiftl (u8 e4) 24))) (u64 (Z.shiftl (u8 e5) 16)))
       (u64 (Z.shiftl (u8 e6) 8))) (u64 (u8 e7))))).
Proof.
  intros Hp Hm Hc Ht.
  rewrite decode_fields.
  - cells Hp. cells Hm. cells Hc. reflexivity.
  - rewrite !length_app, Hp, Hm, Hc. simpl. lia.
  - exact Ht.
Qed.

(** A 64-byte buffer is its ten fields, one after the other. *)
Lemma buffer_layout (b tl : list Z) :
  length b = 64%nat ->
  b ++ tl =
  [nth 0 b 0] ++ firstn 24 (skipn 1 b)
  ++ [nth 25 b 0; nth 26 b 0; nth 27 b 0; nth 28 b 0; nth 29 b 0;
      nth 30 b 0; nth 31 b 0; nth 32 b 0; nth 33 b 0]
  ++ firstn 15 (skipn 34 b) ++ firstn 7 (skipn 49 b)
  ++ [nth 56 b 0; nth 57 b 0; nth 58 b 0; nth 59 b 0; nth 60 b 0;
      nth 61 b 0; nth 62 b 0; nth 63 b 0] ++ tl.
Proof. intros H. cells H. reflexivity. Qed.

Lemma nth_is_byte (b : list Z) (k : nat) :
  Forall is_byte b -> is_byte (nth k b 0).
Proof.
  intros H. destruct (Nat.lt_ge_cases k (length b)) as [Hk|Hk].
  - rewrite Forall_forall in H. apply H, nth_In, Hk.
  - rewrite nth_overflow by lia. unfold is_byte. lia.
Qed.

(** A slot that is NUL after its first NUL is what [strncpy] makes of it. *)
Lemma zero_after_nul_padded (slot : list Z) :
  zero_after_nul slot = true ->
  cstr slot ++ repeat 0 (length slot - length (cstr slot)) = slot.
Proof.
  induction slot as [|c slot IH]; simpl; [reflexivity|].
  unfold nonzero. destruct (Z.eqb_spec c 0) as [->|Hc]; simpl.
  - intros H. f_equal. clear IH.
    induction slot as [|x slot IH]; simpl in *; [reflexivity|].
    apply andb_prop in H as [Hx H]. destruct x; try discriminate Hx.
    f_equal. auto.
  - intros H. f_equal. auto.
Qed.

Lemma strncpy_bytes_slot (n : nat) (slot t : list Z) :
  length slot = n -> zero_after_nul slot = true ->
  strncpy_bytes n (slot ++ t) = slot.
Proof.
  intros <- H. unfold strncpy_bytes.
  rewrite firstn_app, firstn_all, Nat.sub_diag. simpl. rewrite app_nil_r.
  now apply zero_after_nul_padded.
Qed.

(** The channel: a [char] converted to the enum and back is the same
    [char], whatever the signedness of either type. *)
Lemma char_of_enum_of_char (c : Z) :
  is_byte c -> char_of_enum (enum_of c) = c.
Proof.
  unfold is_byte, char_of_enum, to_char, enum_of_char, int_of_char, u8.
  intros H. change (2 ^ 8) with 256. change (2 ^ 32) with 4294967296.
  rewrite (Z.mod_small c 256) by lia.
  destruct enum_is_signed, char_is_signed; simpl;
    destruct (Z.leb_spec 128 c); Z.div_mod_to_equations; lia.
Qed.

(** An ASCII character is the same value in the enum. *)
Lemma enum_of_ascii (c : Z) : 0 <= c < 128 -> enum_of c = c.
Proof.
  unfold enum_of_char, int_of_char, u8.
  intros H. change (2 ^ 8) with 256. change (2 ^ 32) with 4294967296.
  rewrite (Z.mod_small c 256) by lia.
  destruct (Z.leb_spec 128 c); [lia|]. rewrite andb_false_r.
  destruct enum_is_signed; [reflexivity|]. apply Z.mod_small. lia.
Qed.

(** What decoding an encoding restores, with no condition on the channel:
    for a record whose integer fields are in range and whose texts are
    within 24, 15 and 7 characters, the three texts, the four 16-bit
    integers and the timestamp are those of the original, and the channel
    has the character of the original channel; the channel itself is the
    original one when that is a character value of the platform. *)
Lemma roundtrip_fields (v old : prodVersion_t) (buf : list Z) :
  (64 <= length buf)%nat ->
  in_range v ->
  (length (cstr (product v)) <= 24)%nat ->
  (length (cstr (metadata v)) <= 15)%nat ->
  (length (cstr (commitHash v)) <= 7)%nat ->
  exists out v',
    prodVersionEncodeBytes (Some buf) (Some v) = (64%nat, Some out) /\
    decode (Some out) (Some old) = (true, Some v') /\
    cstr (product v') = cstr (product v) /\
    major v' = major v /\
    minor v' = minor v /\
    patch v' = patch v /\
    build v' = build v /\
    releaseChannel v' = enum_of (char_of_enum (releaseChannel v)) /\
    char_of_enum (releaseChannel v') = char_of_enum (releaseChannel v) /\
    (is_char_value char_is_signed enum_is_signed (releaseChannel v) ->
     releaseChannel v' = releaseChannel v) /\
    cstr (metadata v') = cstr (metadata v) /\
    cstr (commitHash v') = cstr (commitHash v) /\
    date v' = date v.
Proof.
  intros Hlen (Hma & Hmi & Hpa & Hbu & Hda) Hp Hm Hc.
  eexists _, _. split; [apply encode_bytes, Hlen|].
  split.
  { apply decode_layout; try apply strncpy_bytes_length. reflexivity. }
  cbn [product major minor patch build releaseChannel metadata commitHash date].
  rewrite !cstr_strncpy_bytes, !firstn_all2 by assumption.
  rewrite !be16_roundtrip, be64_roundtrip by assumption.
  repeat (split; [reflexivity|]).
  split; [apply char_of_enum_of_char, to_char_is_byte|].
  split; [intros Hch; exact Hch|].
  repeat split; reflexivity.
Qed.

(** When the arrays of the record are NUL-filled after their text, and the
    struct decoded into has arrays of 25, 16 and 8 cells, the decoded struct
    is the original one, cell for cell. *)
Lemma roundtrip_exact (v old : prodVersion_t) (buf : list Z) :
  (64 <= length buf)%nat ->
  in_range v ->
  is_char_value char_is_signed enum_is_signed (releaseChannel v) ->
  zero_filled 24 (product v) -> zero_filled 15 (metadata v) ->
  zero_filled 7 (commitHash v) ->
  length (product old) = 25%nat -> length (metadata old) = 16%nat ->
  length (commitHash old) = 8%nat ->
  decode (snd (prodVersionEncodeBytes (Some buf) (Some v))) (Some old)
  = (true, Some v).
Proof.
  intros Hlen (Hma & Hmi & Hpa & Hbu & Hda) Hch Hp Hm Hc Lp Lm Lc.
  rewrite (encode_bytes v buf Hlen). cbn [snd].
  rewrite decode_layout; try apply strncpy_bytes_length; [|reflexivity].
  rewrite !be16_roundtrip, be64_roundtrip by assumption.
  rewrite Hch, !strncpy_bytes_padded.
  rewrite !skipn_all2 by lia.
  unfold zero_filled in Hp, Hm, Hc. rewrite <- Hp, <- Hm, <- Hc.
  destruct v; reflexivity.
Qed.

(** The seven channel tags, and every ASCII character, are character
    values on every platform. *)
Lemma ascii_is_char_value (c : Z) :
  0 <= c < 128 -> is_char_value char_is_signed enum_is_signed c.
Proof.
  intros H. unfold is_char_value, char_of_enum, to_char.
  change (2 ^ 8) with 256. rewrite Z.mod_small by lia.
  now apply enum_of_ascii.
Qed.

(** C5: whatever the length of the texts of a record, decoding its encoding
    gives the leading 24, 15 and 7 characters of product, metadata and
    commit reference; a text longer than its width comes back with exactly
    that many characters, none of them a padding byte. *)
Theorem C5_truncation (v old : prodVersion_t) (buf : list Z) :
  (64 <= length buf)%nat ->
  exists out v',
    prodVersionEncodeBytes (Some buf) (Some v) = (64%nat, Some out) /\
    decode (Some out) (Some old) = (true, Some v') /\
    cstr (product v') = firstn 24 (cstr (product v)) /\
    cstr (metadata v') = firstn 15 (cstr (metadata v)) /\
    cstr (commitHash v') = firstn 7 (cstr (commitHash v)) /\
    ((24 < length (cstr (product v)))%nat ->
     length (cstr (product v')) = 24%nat /\ ~ In 0 (cstr (product v'))) /\
    ((15 < length (cstr (metadata v)))%nat ->
     length (cstr (metadata v')) = 15%nat /\ ~ In 0 (cstr (metadata v'))) /\
    ((7 < length (cstr (commitHash v)))%nat ->
     length (cstr (commitHash v')) = 7%nat /\ ~ In 0 (cstr (commitHash v'))).
Proof.
  intros Hlen.
  eexists _, _. split; [apply encode_bytes, Hlen|].
  split.
  { apply decode_layout; try apply strncpy_bytes_length. reflexivity. }
  cbn [product metadata commitHash].
  rewrite !cstr_strncpy_bytes.
  repeat (split; [reflexivity|]).
  repeat split; try (rewrite length_firstn; lia);
    rewrite <- cstr_strncpy_bytes with (t := []); apply cstr_no_nul.
Qed.

(** What the decoder keeps of the channel byte: a 64-byte buffer with the
    tag 1 decodes whatever its channel byte is; the decoded channel is that
    character converted to the enum type, its character is the byte that
    was read (and its value too when the byte is below 128), and encoding
    the decoded record stores the same byte at offset 33. *)
Lemma channel_character_kept (b dst : list Z) (old : prodVersion_t) :
  length b = 64%nat -> nth 0 b 0 = 1 -> is_byte (nth 33 b 0) ->
  (64 <= length dst)%nat ->
  exists v' out,
    decode (Some b) (Some old) = (true, Some v') /\
    releaseChannel v' = enum_of (nth 33 b 0) /\
    char_of_enum (releaseChannel v') = nth 33 b 0 /\
    (nth 33 b 0 < 128 -> releaseChannel v' = nth 33 b 0) /\
    prodVersionEncodeBytes (Some dst) (Some v') = (64%nat, Some out) /\
    nth 33 out 0 = nth 33 b 0.
Proof.
  intros Hb Htag Hch Hdst.
  eexists _, _. split.
  { apply decode_fields; [lia|]. rewrite Htag. reflexivity. }
  cbn [releaseChannel].
  split; [reflexivity|]. split; [apply char_of_enum_of_char, Hch|].
  split. { intros H. apply enum_of_ascii. unfold is_byte in Hch. lia. }
  split; [apply encode_wire, Hdst|].
  match goal with
  | |- nth 33 (wire_format ?r ++ ?t) 0 = _ =>
    destruct (wire_reads r t) as (_ & _ & _ & _ & _ & _ & H33 & _)
  end.
  rewrite H33. cbn [releaseChannel].
  apply (char_of_enum_of_char _ Hch).
Qed.

(** C10: a canonical 64-byte buffer (tag 1, every text slot NUL after its
    first NUL) is reproduced byte for byte by encoding what it decodes to. *)
Theorem C10_reencode (b dst : list Z) (old : prodVersion_t) :
  canonical b -> (64 <= length dst)%nat ->
  exists v',
    decode (Some b) (Some old) = (true, Some v') /\
    prodVersionEncodeBytes (Some dst) (Some v') =
      (64%nat, Some (b ++ skipn 64 dst)).
Proof.
  intros (Hlen & Hbytes & Htag & Hp & Hm & Hc) Hdst.
  eexists. split.
  { apply decode_fields; [lia|]. rewrite Htag. reflexivity. }
  rewrite (encode_bytes _ dst Hdst).
  cbn [product major minor patch build releaseChannel metadata commitHash date].
  rewrite !strncpy_bytes_slot;
    try assumption; try (rewrite length_firstn, length_skipn; lia).
  pose proof (fun k => nth_is_byte b k Hbytes) as B.
  destruct (be16_bytes _ _ (B 25%nat) (B 26%nat)) as [-> ->].
  destruct (be16_bytes _ _ (B 27%nat) (B 28%nat)) as [-> ->].
  destruct (be16_bytes _ _ (B 29%nat) (B 30%nat)) as [-> ->].
  destruct (be16_bytes _ _ (B 31%nat) (B 32%nat)) as [-> ->].
  rewrite (be64_bytes _ _ _ _ _ _ _ _ (B 56%nat) (B 57%nat) (B 58%nat)
             (B 59%nat) (B 60%nat) (B 61%nat) (B 62%nat) (B 63%nat)).
  rewrite (char_of_enum_of_char _ (B 33%nat)).
  unfold PRODVER_STRUCTVER. rewrite <- Htag.
  rewrite <- (buffer_layout b (skipn 64 dst) Hlen). reflexivity.
Qed.

(** C3: a 64-byte buffer whose first byte is not 1 is rejected by both
    decoders on that byte alone: the C decoder returns false and leaves the
    caller's struct as it was, the C# decoder throws with the blank record
    in its out parameter.  No failure of either decoder leaves a partly
    filled record: the C struct is unchanged whenever false is returned,
    and the C# out parameter is the blank record whenever true is not
    returned. *)
Theorem C3_bad_tag_rejected (buf : list Z) (old : prodVersion_t) :
  length buf = 64%nat -> is_byte (nth 0 buf 0) -> nth 0 buf 0 <> 1 ->
  decode (Some buf) (Some old) = (false, Some old) /\
  (exists message,
     VersionInfo.Decode (Some buf) =
     VersionInfo.Thrown_NotImplementedException message
       VersionInfo.new_VersionInfo) /\
  (forall (x : option (list Z)) (ret : option prodVersion_t),
     fst (decode x ret) = false -> snd (decode x ret) = ret) /\
  (forall x : option (list Z),
     match VersionInfo.Decode x with
     | VersionInfo.Returned true _ => True
     | VersionInfo.Returned false version
     | VersionInfo.Thrown_NotImplementedException _ version =>
         version = VersionInfo.new_VersionInfo
     end).
Proof.
  intros Hlen Hb Htag. split.
  { apply decode_bad_tag. now rewrite u8_byte. }
  split. { eexists. now apply Decode_bad_version. }
  split; [|apply Decode_failure_blank].
  intros [x|] [ret|]; try reflexivity.
  unfold prodVersionDecodeBytes.
  destruct (length x <? PRODVER_ENCODED_LEN)%nat; [reflexivity|].
  destruct (negb (u8 (nth 0 x 0) =? PRODVER_STRUCTVER)); [reflexivity|].
  discriminate.
Qed.

(** C4, as the code has it: the C# decoder returns false for every buffer
    whose length is not 64; the C decoder returns false, leaving the struct
    alone, for every buffer shorter than 64 bytes, and reads a longer buffer
    as its first 64 bytes, so that it succeeds on it when the tag is 1. *)
Theorem C4_length_check (buf : list Z) (old : prodVersion_t) :
  (length buf <> 64%nat ->
   VersionInfo.Decode (Some buf) =
   VersionInfo.Returned false VersionInfo.new_VersionInfo) /\
  ((length buf < 64)%nat ->
   decode (Some buf) (Some old) = (false, Some old)) /\
  ((64 <= length buf)%nat ->
   decode (Some buf) (Some old) = decode (Some (firstn 64 buf)) (Some old) /\
   (u8 (nth 0 buf 0) = 1 -> fst (decode (Some buf) (Some old)) = true)).
Proof.
  split; [apply Decode_wrong_length|]. split; [apply decode_short|].
  intros Hlen. split.
  - destruct (Z.eq_dec (u8 (nth 0 buf 0)) 1) as [Htag|Htag].
    + assert ((64 <= length (firstn 64 buf))%nat) as Hlen'
        by (rewrite length_firstn; lia).
      assert (u8 (nth 0 (firstn 64 buf) 0) = 1) as Htag'
        by (rewrite nth_firstn; exact Htag).
      rewrite (decode_fields buf old Hlen Htag).
      rewrite (decode_fields (firstn 64 buf) old Hlen' Htag').
      clear Htag Htag' Hlen'.
      destruct (split_at 64 buf Hlen) as (hd & tl & -> & Hhd & _).
      cells Hhd. reflexivity.
    + rewrite (decode_bad_tag buf old Htag). symmetry.
      apply decode_bad_tag.
      destruct buf as [|c buf]; [simpl in Hlen; lia|exact Htag].
  - intros Htag. now rewrite (decode_fields buf old Hlen Htag).
Qed.

End Decoder.

(** ** The channel byte under a signed [char] *)

(** The decoder converts the channel [char] to the enum type without going
    through [uint8_t], as its other reads do: a signed [char] of 128 or
    more is a negative value. *)
Lemma enum_of_high_char (enum_is_signed : bool) (c : Z) :
  128 <= c < 256 ->
  enum_of_char true enum_is_signed c =
    (if enum_is_signed then c - 256 else c - 256 + 2 ^ 32) /\
  enum_of_char true enum_is_signed c <> c.
Proof.
  intros H. unfold enum_of_char, int_of_char, u8.
  change (2 ^ 8) with 256. change (2 ^ 32) with 4294967296.
  rewrite (Z.mod_small c 256) by lia.
  destruct (Z.leb_spec 128 c) as [_|Hc]; [|lia]. cbn [andb].
  destruct enum_is_signed.
  - split; [reflexivity|lia].
  - split; Z.div_mod_to_equations; lia.
Qed.

(** C1, where the code departs from it: with a signed [char], a record
    whose channel is an unrecognized tag of 128 or more is not restored by
    decoding its encoding.  The encoder writes the tag, the decoder
    succeeds, and the decoded channel is the tag minus 256 seen in the enum
    type (the tag minus 256, or the tag plus 2^32 minus 256 when the enum
    type is unsigned), never the tag of the original record. *)
Theorem C1_channel_not_restored (enum_is_signed : bool)
    (v old : prodVersion_t) (buf : list Z) :
  (64 <= length buf)%nat ->
  128 <= releaseChannel v < 256 ->
  exists out v',
    prodVersionEncodeBytes (Some buf) (Some v) = (64%nat, Some out) /\
    nth 33 out 0 = releaseChannel v /\
    prodVersionDecodeBytes true enum_is_signed (Some out) (Some old)
      = (true, Some v') /\
    releaseChannel v' =
      (if enum_is_signed then releaseChannel v - 256
       else releaseChannel v - 256 + 2 ^ 32) /\
    releaseChannel v' <> releaseChannel v.
Proof.
  intros Hlen Hch.
  assert (char_of_enum (releaseChannel v) = releaseChannel v) as Hc.
  { unfold char_of_enum, to_char. change (2 ^ 8) with 256.
    apply Z.mod_small. lia. }
  destruct (enum_of_high_char enum_is_signed (releaseChannel v) Hch)
    as [Hval Hne].
  pose proof (encode_bytes v buf Hlen) as Eb.
  pose proof (encode_wire v buf Hlen) as Ew.
  rewrite Eb in Ew.
  assert (forall x y : list Z, (64%nat, Some x) = (64%nat, Some y) -> x = y)
    as inj by (intros; congruence).
  apply inj in Ew. clear inj.
  eexists _, _. split; [exact Eb|].
  split.
  { rewrite Ew.
    destruct (wire_reads v (skipn 64 buf))
      as (_ & _ & _ & _ & _ & _ & H33 & _).
    rewrite H33. apply Z.mod_small. lia. }
  split.
  { apply decode_layout; try apply strncpy_bytes_length. reflexivity. }
  cbn [releaseChannel]. rewrite Hc. split; assumption.
Qed.

(** C6, where the code departs from it: with a signed [char], a channel
    byte of 128 or more is not kept as it is in the decoded record.  The
    decoder succeeds on the 64-byte buffer with the tag 1, and the channel
    it stores is the byte minus 256 seen in the enum type (the byte minus
    256, or the byte plus 2^32 minus 256 when the enum type is unsigned),
    never the byte that was read. *)
Theorem C6_high_channel_byte_changed (enum_is_signed : bool)
    (b : list Z) (old : prodVersion_t) :
  length b = 64%nat -> nth 0 b 0 = 1 -> 128 <= nth 33 b 0 < 256 ->
  exists v',
    prodVersionDecodeBytes true enum_is_signed (Some b) (Some old)
      = (true, Some v') /\
    releaseChannel v' =
      (if enum_is_signed then nth 33 b 0 - 256
       else nth 33 b 0 - 256 + 2 ^ 32) /\
    releaseChannel v' <> nth 33 b 0.
Proof.
  intros Hlen Htag Hch.
  destruct (enum_of_high_char enum_is_signed (nth 33 b 0) Hch) as [Hval Hne].
  eexists. split.
  { apply decode_fields; [lia|]. rewrite Htag. reflexivity. }
  cbn [releaseChannel]. split; assumption.
Qed.

(** ** The theorems at concrete inputs *)

(** The example record comes back from its encoding cell for cell. *)
Example acme_roundtrip :
  prodVersionDecodeBytes true false
    (snd (prodVersionEncodeBytes (Some (repeat 255 64))
            (Some (acme VERSION_CHANNEL_RELEASE 7))))
    (Some blank)
  = (true, Some (acme VERSION_CHANNEL_RELEASE 7)).
Proof.
  apply roundtrip_exact;
    [simpl; lia | unfold in_range; cbn; lia | reflexivity ..].
Qed.

(** What the C encoder writes for the example record, the C# decoder reads
    as the same record. *)
Example acme_across_languages :
  VersionInfo.Decode
    (snd (prodVersionEncodeBytes (Some (repeat 255 64))
            (Some (acme VERSION_CHANNEL_RELEASE 7))))
  = VersionInfo.Returned true (acme_info VersionInfo.Release 7).
Proof. reflexivity. Qed.

Lemma C1_channel_not_restored_witness :
  exists out v',
    prodVersionEncodeBytes (Some (repeat 0 64)) (Some (acme 200 7))
      = (64%nat, Some out) /\
    nth 33 out 0 = 200 /\
    prodVersionDecodeBytes true false (Some out) (Some blank)
      = (true, Some v') /\
    releaseChannel v' = 4294967240 /\
    releaseChannel v' <> 200.
Proof.
  apply (C1_channel_not_restored false (acme 200 7) blank (repeat 0 64)).
  - simpl. lia.
  - simpl. lia.
Defined.

Lemma C2_layout_witness :
  exists out,
    prodVersionEncodeBytes (Some (repeat 0 64))
      (Some (set_major (acme VERSION_CHANNEL_RELEASE 7) 258))
      = (64%nat, Some out) /\
    nth 0 out 0 = 1 /\ nth 25 out 0 = 1 /\ nth 26 out 0 = 2.
Proof.
  destruct (C2_layout (set_major (acme VERSION_CHANNEL_RELEASE 7) 258)
              (repeat 0 64))
    as (out & E & _ & H0 & _ & _ & _ & _ & _ & _ & H).
  - simpl. lia.
  - exists out. destruct (H eq_refl) as [H25 H26]. auto.
Defined.

Lemma C3_bad_tag_rejected_witness :
  prodVersionDecodeBytes false false (Some (2 :: repeat 0 63)) (Some blank)
    = (false, Some blank) /\
  exists message,
    VersionInfo.Decode (Some (2 :: repeat 0 63)) =
    VersionInfo.Thrown_NotImplementedException message
      VersionInfo.new_VersionInfo.
Proof.
  destruct (C3_bad_tag_rejected false false (2 :: repeat 0 63) blank)
    as (Hc & Hcs & _).
  - reflexivity.
  - unfold is_byte. simpl. lia.
  - simpl. lia.
  - auto.
Defined.

Lemma C4_length_check_witness :
  VersionInfo.Decode (Some (1 :: repeat 0 64)) =
    VersionInfo.Returned false VersionInfo.new_VersionInfo /\
  prodVersionDecodeBytes false false (Some (repeat 1 63)) (Some blank)
    = (false, Some blank) /\
  fst (prodVersionDecodeBytes false false (Some (1 :: repeat 0 64))
         (Some blank)) = true.
Proof.
  split; [|split].
  - apply (proj1 (C4_length_check false false (1 :: repeat 0 64) blank)).
    simpl. lia.
  - apply (proj1 (proj2 (C4_length_check false false (repeat 1 63) blank))).
    simpl. lia.
  - apply (proj2 (C4_length_check false false (1 :: repeat 0 64) blank)).
    + simpl. lia.
    + reflexivity.
Defined.

(** The C decoder accepts a 65-byte buffer. *)
Lemma C4_counterexample :
  length (1 :: repeat 0 64) <> 64%nat /\
  fst (prodVersionDecodeBytes false false (Some (1 :: repeat 0 64))
         (Some blank)) = true.
Proof. split; [discriminate|reflexivity]. Qed.

Lemma C5_truncation_witness :
  exists out v',
    prodVersionEncodeBytes (Some (repeat 0 64)) (Some overlong)
      = (64%nat, Some out) /\
    prodVersionDecodeBytes true false (Some out) (Some blank)
      = (true, Some v') /\
    cstr (product v') = bytes_of_string "ABCDEFGHIJKLMNOPQRSTUVWX" /\
    cstr (metadata v') = bytes_of_string "0123456789abcde" /\
    cstr (commitHash v') = bytes_of_string "7b5a2fe".
Proof.
  destruct (C5_truncation true false overlong blank (repeat 0 64))
    as (out & v' & E & D & Hp & Hm & Hc & _).
  - simpl. lia.
  - exists out, v'. auto.
Defined.

Lemma C6_high_channel_byte_changed_witness :
  exists v',
    prodVersionDecodeBytes true false (Some unknown_channel) (Some blank)
      = (true, Some v') /\
    releaseChannel v' = 4294967240 /\
    releaseChannel v' <> 200.
Proof.
  apply (C6_high_channel_byte_changed false unknown_channel blank).
  - reflexivity.
  - reflexivity.
  - simpl. lia.
Defined.

Lemma C8_formatter_bounded_witness :
  exists n out,
    prodVersionToString (Some (acme VERSION_CHANNEL_BETA 7))
      (Some (repeat 255 22)) = Some (n, Some out) /\
    length out = 22%nat /\ n = 0%nat /\ cstr out = [].
Proof.
  destruct (C8_formatter_bounded (acme VERSION_CHANNEL_BETA 7) (repeat 255 22))
    as (text & n & out & R & E & Hl & _ & _ & Hno & _).
  - unfold terminated. simpl. tauto.
  - exists n, out. injection R as <-.
    destruct Hno as [Hn He]; [simpl; lia|]. auto.
Defined.

Lemma C9_example_rendering_witness :
  exists n out,
    prodVersionToString (Some (acme VERSION_CHANNEL_BETA 7))
      (Some (repeat 255 64)) = Some (n, Some out) /\
    firstn 21 out = bytes_of_string "ACME 1.2.3b (abc1234)".
Proof.
  apply (proj2 (proj2 (proj2 (proj2 (proj2 C9_example_rendering))))).
  simpl. lia.
Defined.

(** With the build number 7 of the example neither formatter renders
    "ACME 1.2.3r". *)
Lemma C9_counterexample :
  VersionInfo.ToString (acme_info VersionInfo.Release 7)
    <> bytes_of_string "ACME 1.2.3r" /\
  text_of (prodVersionToString (Some (acme VERSION_CHANNEL_RELEASE 7))
             (Some (repeat 0 64)))
    <> Some (bytes_of_string "ACME 1.2.3r").
Proof. split; intros H; vm_compute in H; discriminate H. Qed.

Lemma C10_reencode_witness :
  exists v',
    prodVersionDecodeBytes true false
      (Some (wire_format (acme VERSION_CHANNEL_RELEASE 7))) (Some blank)
      = (true, Some v') /\
    prodVersionEncodeBytes (Some (repeat 255 64)) (Some v')
      = (64%nat, Some (wire_format (acme VERSION_CHANNEL_RELEASE 7) ++ [])).
Proof.
  apply (C10_reencode true false (wire_format (acme VERSION_CHANNEL_RELEASE 7))
           (repeat 255 64) blank).
  - unfold canonical. repeat split; try reflexivity.
    vm_compute. repeat constructor; discriminate.
  - simpl. lia.
Defined.

(** * Further properties of the C header *)

(** ** The formatter *)

Lemma all_below_spec (bits : nat) (prefix : Z) (P : Z -> bool) :
  all_below bits prefix P = true ->
  forall n, prefix * 2 ^ Z.of_nat bits <= n < (prefix + 1) * 2 ^ Z.of_nat bits ->
            P n = true.
Proof.
  revert prefix. induction bits as [|b IH]; intros prefix H n Hn.
  - simpl in Hn. replace n with prefix by lia. exact H.
  - cbn [all_below] in H. apply andb_prop in H as [H0 H1].
    rewrite Nat2Z.inj_succ, Z.pow_succ_r in Hn by lia.
    assert (0 < 2 ^ Z.of_nat b) as Hpos by (apply Z.pow_pos_nonneg; lia).
    destruct (Z.lt_ge_cases n ((2 * prefix + 1) * 2 ^ Z.of_nat b)).
    + apply (IH _ H0). nia.
    + apply (IH _ H1). nia.
Qed.

Lemma fmt_u_length_check :
  all_below 16 0
    (fun n => let l := length (fmt_u n) in ((1 <=? l) && (l <=? 5))%nat)
  = true.
Proof. vm_compute. reflexivity. Qed.

(** A 16-bit integer prints as one to five digits. *)
Lemma fmt_u_length (n : Z) :
  0 <= n < 2 ^ 16 -> (1 <= length (fmt_u n) <= 5)%nat.
Proof.
  intros H.
  pose proof (all_below_spec 16 0 _ fmt_u_length_check n) as C.
  cbv beta zeta in C.
  assert (0 * 2 ^ Z.of_nat 16 <= n < (0 + 1) * 2 ^ Z.of_nat 16) as Hn
    by (change (2 ^ Z.of_nat 16) with (2 ^ 16); lia).
  apply C in Hn. apply andb_prop in Hn as [H1 H5].
  apply Nat.leb_le in H1. apply Nat.leb_le in H5. lia.
Qed.

Lemma bytes_of_string_length (s : string) :
  length (bytes_of_string s) = String.length s.
Proof.
  unfold bytes_of_string. rewrite length_map.
  induction s; simpl; auto.
Qed.

Lemma Some_length (a b : list Z) : Some a = Some b -> length a = length b.
Proof. congruence. Qed.

(** The rendering of a well-formed struct has between 8 and 70 characters. *)
Lemma rendered_length (v : prodVersion_t) (text : list Z) :
  well_formed v -> rendered v = Some text ->
  (8 <= length text <= 70)%nat.
Proof.
  intros ((Hma & Hmi & Hpa & _) & (Tp & Tm & Tc) & Lp & Lm & Lc).
  unfold rendered.
  rewrite (c_string_defined _ Tp), (c_string_defined _ Tm),
    (c_string_defined _ Tc).
  pose proof (fmt_u_length _ Hma). pose proof (fmt_u_length _ Hmi).
  pose proof (fmt_u_length _ Hpa).
  destruct (nonzero (nth 0 (product v) 0));
    destruct (nonzero (nth 0 (metadata v) 0));
    destruct (negb (releaseChannel v =? VERSION_CHANNEL_RELEASE));
    intros E; apply Some_length in E; rewrite <- E;
    rewrite !length_app, !bytes_of_string_length; cbn [length String.length];
    lia.
Qed.

(** X1: for a well-formed struct the rendering has between 8 and 70
    characters, so the formatter returns 0 with an empty string in every
    buffer of 8 bytes or fewer and succeeds, returning the length of the
    whole rendering, in every buffer of 71 bytes or more. *)
Theorem format_buffer_bounds (v : prodVersion_t) (str : list Z) :
  well_formed v ->
  exists text,
    rendered v = Some text /\
    (8 <= length text <= 70)%nat /\
    ((length str <= 8)%nat ->
     exists out,
       prodVersionToString (Some v) (Some str) = Some (0%nat, Some out) /\
       cstr out = []) /\
    ((71 <= length str)%nat ->
     prodVersionToString (Some v) (Some str) =
     Some (length text, Some (text ++ 0 :: skipn (S (length text)) str))).
Proof.
  intros Hwf. pose proof Hwf as (_ & Hterm & _).
  destruct (rendered_defined v Hterm) as [text Ht].
  pose proof (rendered_length v text Hwf Ht) as Hlen.
  exists text. split; [exact Ht|]. split; [exact Hlen|]. split.
  - intros Hs.
    destruct (toString_fails v str text Ht) as (out & E & _ & Hemp);
      [left; lia|].
    exists out. auto.
  - intros Hs. apply toString_fits; [exact Ht|lia|].
    unfold INT_MAX. lia.
Qed.

(** X2: on the release channel the formatter does not read the commit
    reference: whatever the commit array holds, terminated or not, the
    result is the same. *)
Theorem release_omits_commit (v : prodVersion_t) (c str : list Z) :
  releaseChannel v = VERSION_CHANNEL_RELEASE ->
  prodVersionToString (Some (set_commitHash v c)) (Some str) =
  prodVersionToString (Some v) (Some str).
Proof.
  intros H. unfold prodVersionToString, rendered.
  cbn [set_commitHash product major minor patch build releaseChannel
       metadata commitHash].
  rewrite H, Z.eqb_refl. reflexivity.
Qed.

Lemma rendered_ends (v : prodVersion_t) (text : list Z) :
  rendered v = Some text ->
  exists body, text = body ++ [to_char (build v)].
Proof.
  unfold rendered.
  destruct (if nonzero (nth 0 (product v) 0) then _ else _); [|discriminate].
  destruct (c_string (metadata v)); [|discriminate].
  destruct (if negb _ then c_string _ else _); [|discriminate].
  intros E. eexists. rewrite !app_assoc in E.
  assert (forall a b : list Z, Some a = Some b -> b = a) as inj
    by (intros; congruence).
  apply inj in E. exact E.
Qed.

(** X3: the last character the formatter stores is the low byte of the
    build number, and the returned length counts it: when that byte is 0,
    as for every build number that is a multiple of 256, the C string left
    in the buffer is shorter than the length returned. *)
Theorem returned_length_counts_build (v : prodVersion_t) (str text : list Z) :
  rendered v = Some text ->
  (length text < length str)%nat -> Z.of_nat (length text) <= INT_MAX ->
  exists out,
    prodVersionToString (Some v) (Some str) = Some (length text, Some out) /\
    nth (length text - 1) out 0 = build v mod 256 /\
    (build v mod 256 = 0 -> (length (cstr out) < length text)%nat).
Proof.
  intros Ht Hfit Hint.
  exists (text ++ 0 :: skipn (S (length text)) str).
  split; [now apply toString_fits|].
  destruct (rendered_ends v text Ht) as [body ->].
  unfold to_char. change (2 ^ 8) with 256.
  rewrite length_app. cbn [length].
  replace (length body + 1 - 1)%nat with (length body) by lia.
  rewrite <- !app_assoc. split.
  - rewrite app_nth2 by lia. rewrite Nat.sub_diag. reflexivity.
  - intros ->. cbn [app].
    pose proof (cstr_app_le body (0 :: skipn (S (length body + 1)) str)).
    lia.
Qed.

(** ** The decoder and the encoder together *)

Section Codec.

Variable char_is_signed : bool.
Variable enum_is_signed : bool.

Local Abbreviation decode :=
  (prodVersionDecodeBytes char_is_signed enum_is_signed).
Local Abbreviation enum_of := (enum_of_char char_is_signed enum_is_signed).

(** A decode that returns true read at least 64 bytes, the first one 1. *)
Lemma decode_true_inv (buf : list Z) (old v' : prodVersion_t) :
  decode (Some buf) (Some old) = (true, Some v') ->
  (64 <= length buf)%nat /\ u8 (nth 0 buf 0) = 1.
Proof.
  intros H. destruct (Nat.lt_ge_cases (length buf) 64) as [Hs|Hl].
  - rewrite (decode_short _ _ buf old Hs) in H. discriminate.
  - split; [exact Hl|].
    destruct (Z.eq_dec (u8 (nth 0 buf 0)) 1) as [E|E]; [exact E|].
    rewrite (decode_bad_tag _ _ buf old E) in H. discriminate.
Qed.

Lemma u16_range (x : Z) : 0 <= u16 x < 2 ^ 16.
Proof. unfold u16. apply Z.mod_pos_bound. lia. Qed.

(** The struct that a successful decode stores is well formed. *)
Lemma decoded_fields_well_formed (buf : list Z) (old : prodVersion_t) :
  (64 <= length buf)%nat ->
  well_formed
    (mkProdVersion
      (firstn 24 (skipn 1 buf) ++ 0 :: skipn 25 (product old))
      (u16 (Z.lor (Z.shiftl (u8 (nth 25 buf 0)) 8) (u8 (nth 26 buf 0))))
      (u16 (Z.lor (Z.shiftl (u8 (nth 27 buf 0)) 8) (u8 (nth 28 buf 0))))
      (u16 (Z.lor (Z.shiftl (u8 (nth 29 buf 0)) 8) (u8 (nth 30 buf 0))))
      (u16 (Z.lor (Z.shiftl (u8 (nth 31 buf 0)) 8) (u8 (nth 32 buf 0))))
      (enum_of (nth 33 buf 0))
      (firstn 15 (skipn 34 buf) ++ 0 :: skipn 16 (metadata old))
      (firstn 7 (skipn 49 buf) ++ 0 :: skipn 8 (commitHash old))
      (Z.lor (Z.lor (Z.lor (Z.lor (Z.lor (Z.lor (Z.lor (Z.lor 0
         (u64 (Z.shiftl (u8 (nth 56 buf 0)) 56)))
         (u64 (Z.shiftl (u8 (nth 57 buf 0)) 48)))
         (u64 (Z.shiftl (u8 (nth 58 buf 0)) 40)))
         (u64 (Z.shiftl (u8 (nth 59 buf 0)) 32)))
         (u64 (Z.shiftl (u8 (nth 60 buf 0)) 24)))
         (u64 (Z.shiftl (u8 (nth 61 buf 0)) 16)))
         (u64 (Z.shiftl (u8 (nth 62 buf 0)) 8)))
         (u64 (u8 (nth 63 buf 0))))).
Proof.
  intros Hlen.
  assert (forall n k, (k + n <= 64)%nat -> length (firstn n (skipn k buf)) = n)
    as L by (intros; rewrite length_firstn, length_skipn; lia).
  unfold well_formed, in_range, terminated.
  cbn [product major minor patch build releaseChannel metadata commitHash date].
  repeat split; try apply u16_range; try (apply in_elt).
  - rewrite be64_value by apply u8_is_byte.
    pose proof (u8_is_byte (nth 56 buf 0)). pose proof (u8_is_byte (nth 57 buf 0)).
    pose proof (u8_is_byte (nth 58 buf 0)). pose proof (u8_is_byte (nth 59 buf 0)).
    pose proof (u8_is_byte (nth 60 buf 0)). pose proof (u8_is_byte (nth 61 buf 0)).
    pose proof (u8_is_byte (nth 62 buf 0)). pose proof (u8_is_byte (nth 63 buf 0)).
    unfold is_byte in *. lia.
  - rewrite be64_value by apply u8_is_byte.
    pose proof (u8_is_byte (nth 56 buf 0)). pose proof (u8_is_byte (nth 57 buf 0)).
    pose proof (u8_is_byte (nth 58 buf 0)). pose proof (u8_is_byte (nth 59 buf 0)).
    pose proof (u8_is_byte (nth 60 buf 0)). pose proof (u8_is_byte (nth 61 buf 0)).
    pose proof (u8_is_byte (nth 62 buf 0)). pose proof (u8_is_byte (nth 63 buf 0)).
    unfold is_byte in *. lia.
  - pose proof (cstr_app_le (firstn 24 (skipn 1 buf)) (skipn 25 (product old)))
      as H.
    rewrite (L 24%nat 1%nat) in H by lia. exact H.
  - pose proof (cstr_app_le (firstn 15 (skipn 34 buf)) (skipn 16 (metadata old)))
      as H.
    rewrite (L 15%nat 34%nat) in H by lia. exact H.
  - pose proof (cstr_app_le (firstn 7 (skipn 49 buf)) (skipn 8 (commitHash old)))
      as H.
    rewrite (L 7%nat 49%nat) in H by lia. exact H.
Qed.

Lemma pair_some_inj (a b : prodVersion_t) :
  (true, Some a) = (true, Some b) -> b = a.
Proof. congruence. Qed.

(** X4: whatever the bytes of the buffer and whatever the struct held
    before, a decode that returns true leaves a well-formed struct: the
    integers in the range of their types and three NUL-terminated texts of
    at most 24, 15 and 7 characters. *)
Theorem decode_well_formed (buf : list Z) (old v' : prodVersion_t) :
  decode (Some buf) (Some old) = (true, Some v') -> well_formed v'.
Proof.
  intros H. destruct (decode_true_inv buf old v' H) as [Hlen Htag].
  rewrite (decode_fields _ _ buf old Hlen Htag) in H.
  apply pair_some_inj in H. subst v'.
  apply decoded_fields_well_formed, Hlen.
Qed.

(** X5: every struct that the decoder filled can be formatted: in a buffer
    of at least 71 bytes the formatter is defined and succeeds, returning
    the length, between 8 and 70, of the text it stored. *)
Theorem decoded_struct_formats (buf str : list Z) (old v' : prodVersion_t) :
  decode (Some buf) (Some old) = (true, Some v') ->
  (71 <= length str)%nat ->
  exists text,
    prodVersionToString (Some v') (Some str) =
      Some (length text, Some (text ++ 0 :: skipn (S (length text)) str)) /\
    (8 <= length text <= 70)%nat.
Proof.
  intros H Hs. destruct (decode_true_inv buf old v' H) as [Hlen Htag].
  rewrite (decode_fields _ _ buf old Hlen Htag) in H.
  apply pair_some_inj in H. subst v'.
  pose proof (decoded_fields_well_formed buf old Hlen) as Hwf.
  pose proof Hwf as (_ & Hterm & _).
  destruct (rendered_defined _ Hterm) as [text Ht].
  pose proof (rendered_length _ text Hwf Ht) as Hlen'.
  exists text. split; [|exact Hlen'].
  apply toString_fits; [exact Ht|lia|]. unfold INT_MAX. lia.
Qed.

(** What the decoder makes of a wire form followed by anything. *)
Lemma decode_wire (r old : prodVersion_t) (tl : list Z) :
  in_range r ->
  decode (Some (wire_format r ++ tl)) (Some old) =
  (true, Some (mkProdVersion
    (nul_padded 24 (cstr (product r)) ++ 0 :: skipn 25 (product old))
    (major r) (minor r) (patch r) (build r)
    (enum_of (char_of_enum (releaseChannel r)))
    (nul_padded 15 (cstr (metadata r)) ++ 0 :: skipn 16 (metadata old))
    (nul_padded 7 (cstr (commitHash r)) ++ 0 :: skipn 8 (commitHash old))
    (date r))).
Proof.
  intros (Hma & Hmi & Hpa & Hbu & Hda).
  assert (wire_format r ++ tl =
          snd_buffer (prodVersionEncodeBytes (Some (repeat 0 64 ++ tl)) (Some r)))
    as ->.
  { rewrite encode_wire by (rewrite length_app, repeat_length; lia).
    reflexivity. }
  rewrite encode_bytes by (rewrite length_app, repeat_length; lia).
  cbn [snd_buffer snd].
  rewrite decode_layout; try apply strncpy_bytes_length; [|reflexivity].
  rewrite !be16_roundtrip, be64_roundtrip by assumption.
  rewrite !strncpy_bytes_padded. reflexivity.
Qed.

Lemma cstr_nul_padded (w : nat) (a t : list Z) :
  cstr (nul_padded w (cstr a) ++ 0 :: t) = firstn w (cstr a).
Proof. rewrite <- strncpy_bytes_padded. apply cstr_strncpy_bytes. Qed.

Lemma nul_padded_firstn (w : nat) (s : list Z) :
  nul_padded w (firstn w s) = nul_padded w s.
Proof. unfold nul_padded. now rewrite firstn_firstn, Nat.min_id. Qed.

(** X6: two representable structs that the encoder turns into the same
    bytes hold the same values: the same three texts, the same integers,
    the same channel and the same timestamp. *)
Theorem encode_injective (r1 r2 : prodVersion_t) (buf : list Z) :
  (64 <= length buf)%nat ->
  representable char_is_signed enum_is_signed r1 ->
  representable char_is_signed enum_is_signed r2 ->
  prodVersionEncodeBytes (Some buf) (Some r1) =
  prodVersionEncodeBytes (Some buf) (Some r2) ->
  cstr (product r1) = cstr (product r2) /\
  major r1 = major r2 /\ minor r1 = minor r2 /\ patch r1 = patch r2 /\
  build r1 = build r2 /\ releaseChannel r1 = releaseChannel r2 /\
  cstr (metadata r1) = cstr (metadata r2) /\
  cstr (commitHash r1) = cstr (commitHash r2) /\
  date r1 = date r2.
Proof.
  intros Hlen (R1 & C1 & P1 & M1 & H1) (R2 & C2 & P2 & M2 & H2) E.
  rewrite !encode_wire in E by exact Hlen.
  assert (wire_format r1 ++ skipn 64 buf = wire_format r2 ++ skipn 64 buf)
    as E' by congruence.
  pose proof (decode_wire r1 blank (skipn 64 buf) R1) as D1.
  pose proof (decode_wire r2 blank (skipn 64 buf) R2) as D2.
  rewrite E' in D1. rewrite D1 in D2. clear D1 E E'.
  assert (forall a b : prodVersion_t, (true, Some a) = (true, Some b) -> a = b)
    as inj by (intros; congruence).
  apply inj in D2.
  pose proof (f_equal (fun r => cstr (product r)) D2) as Ep.
  pose proof (f_equal (fun r => cstr (metadata r)) D2) as Em.
  pose proof (f_equal (fun r => cstr (commitHash r)) D2) as Ec.
  pose proof (f_equal major D2) as Ema. pose proof (f_equal minor D2) as Emi.
  pose proof (f_equal patch D2) as Epa. pose proof (f_equal build D2) as Ebu.
  pose proof (f_equal releaseChannel D2) as Ech.
  pose proof (f_equal date D2) as Eda.
  cbn [product major minor patch build releaseChannel metadata commitHash date]
    in *.
  rewrite !cstr_nul_padded in Ep, Em, Ec.
  rewrite !firstn_all2 in Ep, Em, Ec by assumption.
  unfold is_char_value in C1, C2. rewrite C1, C2 in Ech.
  repeat split; assumption.
Qed.

(** X7: encoding once more what was decoded from an encoding writes the
    same 64 bytes, also when the first encoding cut the texts. *)
Theorem reencode_is_stable (r old : prodVersion_t) (buf dst : list Z) :
  (64 <= length buf)%nat -> (64 <= length dst)%nat -> in_range r ->
  exists out v',
    prodVersionEncodeBytes (Some buf) (Some r) = (64%nat, Some out) /\
    decode (Some out) (Some old) = (true, Some v') /\
    prodVersionEncodeBytes (Some dst) (Some v') =
      (64%nat, Some (firstn 64 out ++ skipn 64 dst)).
Proof.
  intros Hbuf Hdst Hr.
  eexists _, _. split; [apply encode_wire, Hbuf|].
  split; [apply decode_wire, Hr|].
  rewrite encode_wire by exact Hdst.
  rewrite firstn_app, wire_format_length, Nat.sub_diag, firstn_O, app_nil_r.
  rewrite firstn_all2 by (rewrite wire_format_length; lia).
  do 3 f_equal. unfold wire_format.
  cbn [product major minor patch build releaseChannel metadata commitHash date].
  rewrite !cstr_nul_padded, !nul_padded_firstn.
  pose proof (char_of_enum_of_char char_is_signed enum_is_signed
                (char_of_enum (releaseChannel r))
                (to_char_is_byte (releaseChannel r))) as Hc.
  unfold char_of_enum, to_char in Hc. change (2 ^ 8) with 256 in Hc.
  unfold char_of_enum, to_char. change (2 ^ 8) with 256.
  rewrite Hc. reflexivity.
Qed.

(** X17: a struct whose arrays hold a text within the width and NUL in
    every cell after it, with integers in range and a channel that is a
    character, comes back from its encoding exactly, cell for cell, when it
    is decoded into a struct whose arrays have 25, 16 and 8 cells. *)
Theorem decode_encode_exact (r old : prodVersion_t) (buf : list Z) :
  (64 <= length buf)%nat ->
  in_range r ->
  is_char_value char_is_signed enum_is_signed (releaseChannel r) ->
  zero_filled 24 (product r) -> zero_filled 15 (metadata r) ->
  zero_filled 7 (commitHash r) ->
  length (product old) = 25%nat -> length (metadata old) = 16%nat ->
  length (commitHash old) = 8%nat ->
  exists out,
    prodVersionEncodeBytes (Some buf) (Some r) = (64%nat, Some out) /\
    decode (Some out) (Some old) = (true, Some r).
Proof.
  intros Hlen Hr Hch Zp Zm Zc Lp Lm Lc.
  eexists. split; [apply encode_wire, Hlen|].
  rewrite (decode_wire r old _ Hr).
  rewrite !skipn_all2 by lia.
  unfold is_char_value in Hch. rewrite Hch.
  unfold zero_filled in Zp, Zm, Zc. rewrite <- Zp, <- Zm, <- Zc.
  destruct r; reflexivity.
Qed.

End Codec.

(** * Further properties of the C# struct *)

(** ** Strings *)

Lemma GetCString_cut (str : list Z) :
  (if 0 <=? VersionInfo.IndexOf_nul str
   then firstn (Z.to_nat (VersionInfo.IndexOf_nul str)) str
   else str) = cstr str
  /\ -1 <= VersionInfo.IndexOf_nul str.
Proof.
  induction str as [|c s [IH Hi]]; simpl; [split; [reflexivity|lia]|].
  unfold nonzero. destruct (Z.eqb_spec c 0) as [->|Hc]; simpl.
  - split; [reflexivity|lia].
  - destruct (Z.ltb_spec (VersionInfo.IndexOf_nul s) 0) as [Hn|Hn].
    + split; [|lia]. simpl. f_equal.
      destruct (Z.leb_spec 0 (VersionInfo.IndexOf_nul s)); [lia|exact IH].
    + split; [|lia].
      destruct (Z.leb_spec 0 (VersionInfo.IndexOf_nul s + 1)); [|lia].
      destruct (Z.leb_spec 0 (VersionInfo.IndexOf_nul s)); [|lia].
      rewrite Z2Nat.inj_add by lia. rewrite Nat.add_1_r. simpl.
      now rewrite IH.
Qed.

(** [GetCString] is the text before the first NUL of the decoded slot. *)
Lemma GetCString_cstr (buffer : list Z) (offset n : nat) :
  VersionInfo.GetCString buffer offset n =
  cstr (VersionInfo.ASCII_GetString buffer offset n).
Proof. unfold VersionInfo.GetCString. apply GetCString_cut. Qed.

Lemma cstr_map_ascii (l : list Z) :
  cstr (map (fun b => if b <? 128 then b else 63) l) =
  map (fun b => if b <? 128 then b else 63) (cstr l).
Proof.
  induction l as [|c l IH]; cbn [map cstr]; [reflexivity|].
  assert (nonzero (if c <? 128 then c else 63) = nonzero c) as ->.
  { unfold nonzero. destruct (Z.ltb_spec c 128); [reflexivity|].
    destruct (Z.eqb_spec c 0); [lia|reflexivity]. }
  destruct (nonzero c); cbn [map]; [now rewrite IH|reflexivity].
Qed.

Lemma map_ascii_id (s : list Z) :
  Forall (fun c => c < 128) s ->
  map (fun b => if b <? 128 then b else 63) s = s.
Proof.
  induction 1 as [|c s Hc _ IH]; simpl; [reflexivity|].
  destruct (Z.ltb_spec c 128); [|lia]. now rewrite IH.
Qed.

Lemma ascii_text_lt (s : list Z) : ascii_text s -> Forall (fun c => c < 128) s.
Proof. unfold ascii_text. apply Forall_impl. intros; lia. Qed.

Lemma ascii_text_nonzero (s : list Z) :
  ascii_text s -> Forall (fun c => c <> 0) s.
Proof. unfold ascii_text. apply Forall_impl. intros; lia. Qed.

Lemma drop_nuls_length (s : list Z) :
  (length (VersionInfo.drop_nuls s) <= length s)%nat.
Proof.
  induction s as [|c s IH]; simpl; [lia|].
  destruct (c =? 0); simpl; lia.
Qed.

Lemma TrimEnd_length (s : list Z) :
  (length (VersionInfo.TrimEnd s) <= length s)%nat.
Proof.
  unfold VersionInfo.TrimEnd. rewrite length_rev.
  pose proof (drop_nuls_length (rev s)) as H. rewrite length_rev in H. exact H.
Qed.

(** [TrimEnd] leaves a text without NUL as it is. *)
Lemma TrimEnd_id (s : list Z) :
  Forall (fun c => c <> 0) s -> VersionInfo.TrimEnd s = s.
Proof.
  intros H. unfold VersionInfo.TrimEnd.
  assert (VersionInfo.drop_nuls (rev s) = rev s) as ->; [|apply rev_involutive].
  apply Forall_rev in H. destruct H as [|c l Hc _]; simpl; [reflexivity|].
  destruct (Z.eqb_spec c 0); [contradiction|reflexivity].
Qed.

Lemma clip_fits (size : nat) (s : list Z) :
  (length s <= size)%nat -> VersionInfo.clip size (Some s) = Some s.
Proof.
  intros H. unfold VersionInfo.clip.
  destruct (Nat.ltb_spec size (length s)); [lia|reflexivity].
Qed.

Lemma clip_length (size : nat) (value : option (list Z)) :
  (length (VersionInfo.or_empty (VersionInfo.clip size value)) <= size)%nat.
Proof.
  destruct value as [s|]; simpl; [|lia].
  destruct (Nat.ltb_spec size (length s)); simpl.
  - rewrite length_firstn. lia.
  - exact H.
Qed.

(** ** The C# decoder *)

Lemma GetCString_length (buffer : list Z) (offset n : nat) :
  (length (VersionInfo.GetCString buffer offset n) <= n)%nat.
Proof.
  rewrite GetCString_cstr.
  pose proof (cstr_length (VersionInfo.ASCII_GetString buffer offset n)) as H.
  unfold VersionInfo.ASCII_GetString in *.
  rewrite length_map in H. pose proof (firstn_le_length n (skipn offset buffer)).
  lia.
Qed.

(** What a successful [Decode] puts in its [out] parameter. *)
Lemma Decode_fields (b : list Z) :
  length b = 64%nat -> nth 0 b 0 = 1 ->
  VersionInfo.Decode (Some b) =
  VersionInfo.Returned true
    (VersionInfo.mk
       (Some (VersionInfo.GetCString b 1 24))
       (u16 (Z.lor (Z.shiftl (nth 25 b 0) 8) (nth 26 b 0)))
       (u16 (Z.lor (Z.shiftl (nth 27 b 0) 8) (nth 28 b 0)))
       (u16 (Z.lor (Z.shiftl (nth 29 b 0) 8) (nth 30 b 0)))
       (u16 (Z.lor (Z.shiftl (nth 31 b 0) 8) (nth 32 b 0)))
       (nth 33 b 0)
       (Some (VersionInfo.GetCString b 34 15))
       (Some (VersionInfo.GetCString b 49 7))
       (Z.lor (Z.lor (Z.lor (Z.lor (Z.lor (Z.lor (Z.lor
          (u64 (Z.shiftl (nth 56 b 0) 56))
          (u64 (Z.shiftl (nth 57 b 0) 48)))
          (u64 (Z.shiftl (nth 58 b 0) 40)))
          (u64 (Z.shiftl (nth 59 b 0) 32)))
          (u64 (Z.shiftl (nth 60 b 0) 24)))
          (u64 (Z.shiftl (nth 61 b 0) 16)))
          (u64 (Z.shiftl (nth 62 b 0) 8)))
          (nth 63 b 0))).
Proof.
  intros Hlen Htag. unfold VersionInfo.Decode. rewrite Hlen, Htag.
  cbv beta iota zeta delta
    [Nat.eqb negb Z.eqb Pos.eqb Nat.add
     VersionInfo.PRODUCT_SIZE VersionInfo.METADATA_SIZE
     VersionInfo.COMMIT_HASH_SIZE VersionInfo.new_VersionInfo
     VersionInfo.set_Product VersionInfo.set_Major VersionInfo.set_Minor
     VersionInfo.set_Patch VersionInfo.set_Build
     VersionInfo.set_ReleaseChannel VersionInfo.set_Metadata
     VersionInfo.set_CommitHash VersionInfo.set_unixTimestamp
     VersionInfo._product VersionInfo._major VersionInfo._minor
     VersionInfo._patch VersionInfo._build VersionInfo._releaseChannel
     VersionInfo._metadata VersionInfo._commitHash
     VersionInfo._unixTimestamp].
  rewrite !clip_fits by apply GetCString_length.
  reflexivity.
Qed.

(** The reassembly of the timestamp by the C# decoder. *)
Lemma be64_value_cs (b0 b1 b2 b3 b4 b5 b6 b7 : Z) :
  is_byte b0 -> is_byte b1 -> is_byte b2 -> is_byte b3 ->
  is_byte b4 -> is_byte b5 -> is_byte b6 -> is_byte b7 ->
  Z.lor (Z.lor (Z.lor (Z.lor (Z.lor (Z.lor (Z.lor
    (u64 (Z.shiftl b0 56)) (u64 (Z.shiftl b1 48))) (u64 (Z.shiftl b2 40)))
    (u64 (Z.shiftl b3 32))) (u64 (Z.shiftl b4 24))) (u64 (Z.shiftl b5 16)))
    (u64 (Z.shiftl b6 8))) b7
  = b0 * 2 ^ 56 + b1 * 2 ^ 48 + b2 * 2 ^ 40 + b3 * 2 ^ 32
    + b4 * 2 ^ 24 + b5 * 2 ^ 16 + b6 * 2 ^ 8 + b7.
Proof.
  intros H0 H1 H2 H3 H4 H5 H6 H7.
  rewrite <- (be64_value b0 b1 b2 b3 b4 b5 b6 b7) by assumption.
  rewrite Z.lor_0_l. f_equal.
  unfold u64, is_byte in *. symmetry. apply Z.mod_small. lia.
Qed.

(** The bytes of the integers in a wire form. *)
Lemma wire_bytes (r : prodVersion_t) :
  let out := wire_format r in
  [nth 25 out 0; nth 26 out 0] = big_endian 2 (major r) /\
  [nth 27 out 0; nth 28 out 0] = big_endian 2 (minor r) /\
  [nth 29 out 0; nth 30 out 0] = big_endian 2 (patch r) /\
  [nth 31 out 0; nth 32 out 0] = big_endian 2 (build r) /\
  [nth 56 out 0; nth 57 out 0; nth 58 out 0; nth 59 out 0;
   nth 60 out 0; nth 61 out 0; nth 62 out 0; nth 63 out 0]
    = big_endian 8 (date r).
Proof.
  unfold wire_format.
  pose proof (nul_padded_length 24 (cstr (product r))) as Hp.
  pose proof (nul_padded_length 15 (cstr (metadata r))) as Hm.
  pose proof (nul_padded_length 7 (cstr (commitHash r))) as Hc.
  generalize dependent (nul_padded 24 (cstr (product r))).
  generalize dependent (nul_padded 15 (cstr (metadata r))).
  generalize dependent (nul_padded 7 (cstr (commitHash r))).
  intros fc Hc fm Hm fp Hp.
  cells Hp. cells Hm. cells Hc.
  repeat split; reflexivity.
Qed.

Lemma big_endian_is_byte (n : nat) (x : Z) : Forall is_byte (big_endian n x).
Proof.
  induction n as [|n IH]; cbn [big_endian]; constructor; [|exact IH].
  unfold is_byte. apply Z.mod_pos_bound. lia.
Qed.

Lemma be16_of_wire (x a b : Z) :
  0 <= x < 2 ^ 16 -> [a; b] = big_endian 2 x ->
  u16 (Z.lor (Z.shiftl a 8) b) = x.
Proof.
  intros Hx E. pose proof (big_endian_is_byte 2 x) as B.
  rewrite <- E in B. inversion B as [|? ? Ba B']. inversion B' as [|? ? Bb _].
  subst. rewrite be16_value by assumption.
  rewrite big_endian_2 in E.
  assert (a = (x / 2 ^ 8) mod 256 /\ b = x mod 256) as [-> ->]
    by (split; congruence).
  change (2 ^ 8) with 256. change (2 ^ 16) with 65536 in Hx.
  Z.div_mod_to_equations. lia.
Qed.

Lemma be64_of_wire (x b0 b1 b2 b3 b4 b5 b6 b7 : Z) :
  0 <= x < 2 ^ 64 -> [b0; b1; b2; b3; b4; b5; b6; b7] = big_endian 8 x ->
  Z.lor (Z.lor (Z.lor (Z.lor (Z.lor (Z.lor (Z.lor
    (u64 (Z.shiftl b0 56)) (u64 (Z.shiftl b1 48))) (u64 (Z.shiftl b2 40)))
    (u64 (Z.shiftl b3 32))) (u64 (Z.shiftl b4 24))) (u64 (Z.shiftl b5 16)))
    (u64 (Z.shiftl b6 8))) b7 = x.
Proof.
  intros Hx E. pose proof (big_endian_is_byte 8 x) as B.
  rewrite <- E in B.
  repeat match goal with
         | H : Forall is_byte (_ :: _) |- _ =>
           let Hb := fresh "Hb" in
           apply Forall_cons_iff in H; destruct H as [Hb H]
         end.
  rewrite be64_value_cs by assumption.
  pose proof (big_endian_value 8 x) as V. rewrite <- E in V.
  unfold be_value in V. cbn [fold_left] in V.
  change (256 ^ Z.of_nat 8) with (2 ^ 64) in V. specialize (V Hx).
  rewrite <- V. ring.
Qed.

(** ** The C# encoder *)

Lemma skipn_repeat (n k : nat) (c : Z) :
  skipn n (repeat c k) = repeat c (k - n).
Proof.
  revert k. induction n as [|n IH]; intros [|k]; simpl; auto.
Qed.

(** Copying a short text into a zeroed field is writing the padded text. *)
Lemma CopyTo_field (w : nat) (src buffer : list Z) (off : nat) :
  (length src <= w)%nat -> (off + w <= length buffer)%nat ->
  firstn w (skipn off buffer) = repeat 0 w ->
  VersionInfo.CopyTo src buffer off =
  Some (write_at off (nul_padded w src) buffer).
Proof.
  intros Hs Hb Hz. unfold VersionInfo.CopyTo.
  destruct (Nat.leb_spec (off + length src) (length buffer)) as [_|H]; [|lia].
  f_equal. unfold write_at, nul_padded.
  rewrite (@firstn_all2 _ w src) by exact Hs.
  rewrite length_app, repeat_length.
  replace (off + (length src + (w - length src)))%nat with (w + off)%nat by lia.
  rewrite <- app_assoc. do 2 f_equal.
  rewrite <- (skipn_skipn w off buffer).
  replace (off + length src)%nat with (length src + off)%nat by lia.
  rewrite <- (skipn_skipn (length src) off buffer).
  rewrite <- (firstn_skipn w (skipn off buffer)) at 1.
  rewrite Hz, skipn_app, skipn_repeat, repeat_length.
  replace (length src - w)%nat with 0%nat by lia.
  reflexivity.
Qed.

(** The bytes of a record whose three texts fit their fields. *)
Lemma Encode_layout (v : VersionInfo.t) :
  (length (VersionInfo.Product v) <= 24)%nat ->
  (length (VersionInfo.Metadata v) <= 15)%nat ->
  (length (VersionInfo.CommitHash v) <= 7)%nat ->
  VersionInfo.Encode v =
  VersionInfo.Encoded
    ([1]
     ++ nul_padded 24 (VersionInfo.ASCII_GetBytes (VersionInfo.Product v))
     ++ [VersionInfo.to_byte (Z.shiftr (VersionInfo._major v) 8);
         VersionInfo.to_byte (VersionInfo._major v);
         VersionInfo.to_byte (Z.shiftr (VersionInfo._minor v) 8);
         VersionInfo.to_byte (VersionInfo._minor v);
         VersionInfo.to_byte (Z.shiftr (VersionInfo._patch v) 8);
         VersionInfo.to_byte (VersionInfo._patch v);
         VersionInfo.to_byte (Z.shiftr (VersionInfo._build v) 8);
         VersionInfo.to_byte (VersionInfo._build v);
         VersionInfo.to_byte (VersionInfo._releaseChannel v)]
     ++ nul_padded 15 (VersionInfo.ASCII_GetBytes (VersionInfo.Metadata v))
     ++ nul_padded 7 (VersionInfo.ASCII_GetBytes (VersionInfo.CommitHash v))
     ++ [VersionInfo.to_byte (Z.shiftr (VersionInfo._unixTimestamp v) 56);
         VersionInfo.to_byte (Z.shiftr (VersionInfo._unixTimestamp v) 48);
         VersionInfo.to_byte (Z.shiftr (VersionInfo._unixTimestamp v) 40);
         VersionInfo.to_byte (Z.shiftr (VersionInfo._unixTimestamp v) 32);
         VersionInfo.to_byte (Z.shiftr (VersionInfo._unixTimestamp v) 24);
         VersionInfo.to_byte (Z.shiftr (VersionInfo._unixTimestamp v) 16);
         VersionInfo.to_byte (Z.shiftr (VersionInfo._unixTimestamp v) 8);
         VersionInfo.to_byte (VersionInfo._unixTimestamp v)]).
Proof.
  intros Hp Hm Hc.
  assert (forall s, length (VersionInfo.ASCII_GetBytes s) = length s) as L
    by (intros; apply length_map).
  rewrite <- L in Hp, Hm, Hc. clear L.
  unfold VersionInfo.Encode, VersionInfo.PRODUCT_SIZE,
    VersionInfo.METADATA_SIZE, VersionInfo.COMMIT_HASH_SIZE,
    VersionInfo.ENCODING_VERSION.
  rewrite (CopyTo_field 24); [|exact Hp|simpl; lia|reflexivity].
  pose proof (nul_padded_length 24
                (VersionInfo.ASCII_GetBytes (VersionInfo.Product v))) as Lp.
  generalize dependent
    (nul_padded 24 (VersionInfo.ASCII_GetBytes (VersionInfo.Product v))).
  intros fp Lp. cells Lp.
  rewrite (CopyTo_field 15); [|exact Hm|simpl; lia|reflexivity].
  pose proof (nul_padded_length 15
                (VersionInfo.ASCII_GetBytes (VersionInfo.Metadata v))) as Lm.
  generalize dependent
    (nul_padded 15 (VersionInfo.ASCII_GetBytes (VersionInfo.Metadata v))).
  intros fm Lm. cells Lm.
  rewrite (CopyTo_field 7); [|exact Hc|simpl; lia|reflexivity].
  pose proof (nul_padded_length 7
                (VersionInfo.ASCII_GetBytes (VersionInfo.CommitHash v))) as Lc.
  generalize dependent
    (nul_padded 7 (VersionInfo.ASCII_GetBytes (VersionInfo.CommitHash v))).
  intros fc Lc. cells Lc.
  reflexivity.
Qed.

(** ** The two implementations together *)

Lemma cstr_padded (l : list Z) (k : nat) :
  Forall (fun c => c <> 0) l -> cstr (l ++ repeat 0 k) = l.
Proof.
  intros H. destruct k; simpl.
  - rewrite app_nil_r. now apply cstr_fixed.
  - now apply cstr_app_nul.
Qed.

Lemma cstr_nul_padded_plain (w : nat) (a : list Z) :
  cstr (nul_padded w (cstr a)) = firstn w (cstr a).
Proof.
  unfold nul_padded. apply cstr_padded, firstn_nonzero, cstr_nonzero.
Qed.

Lemma firstn_ascii (n : nat) (s : list Z) :
  ascii_text s -> ascii_text (firstn n s).
Proof.
  unfold ascii_text. intros H. revert n.
  induction H as [|c l Hc _ IH]; intros [|n]; simpl; constructor; auto.
Qed.

(** The text that [Decode] reads from a slot of a wire form. *)
Lemma GetCString_wire (out : list Z) (off w : nat) (a : list Z) :
  firstn w (skipn off out) = nul_padded w (cstr a) ->
  ascii_text (cstr a) ->
  VersionInfo.GetCString out off w = firstn w (cstr a).
Proof.
  intros E Ha. rewrite GetCString_cstr. unfold VersionInfo.ASCII_GetString.
  rewrite E, cstr_map_ascii, cstr_nul_padded_plain.
  apply map_ascii_id, ascii_text_lt, firstn_ascii, Ha.
Qed.

(** X8: what the C encoder writes into a 64-byte buffer for a struct with
    integers in range and ASCII texts, the C# decoder reads as the same
    values: the texts cut to their widths, the integers, the character of
    the channel and the timestamp. *)
Theorem cs_decodes_c_encoding (r : prodVersion_t) (buf : list Z) :
  length buf = 64%nat -> in_range r -> ascii_struct r ->
  exists out,
    prodVersionEncodeBytes (Some buf) (Some r) = (64%nat, Some out) /\
    VersionInfo.Decode (Some out) = VersionInfo.Returned true (info_of r).
Proof.
  intros Hlen (Hma & Hmi & Hpa & Hbu & Hda) (Ap & Am & Ac).
  exists (wire_format r). split.
  { rewrite encode_wire by lia. rewrite skipn_all2 by lia.
    now rewrite app_nil_r. }
  destruct (wire_reads r []) as
    (Ht & Rp & _ & _ & _ & _ & Rch & Rm & Rc & _ & _ & _).
  rewrite app_nil_r in Ht, Rp, Rch, Rm, Rc.
  destruct (wire_bytes r) as (Bma & Bmi & Bpa & Bbu & Bda).
  rewrite Decode_fields by (try apply wire_format_length; exact Ht).
  rewrite (GetCString_wire _ _ _ _ Rp Ap), (GetCString_wire _ _ _ _ Rm Am),
    (GetCString_wire _ _ _ _ Rc Ac).
  rewrite (be16_of_wire _ _ _ Hma Bma), (be16_of_wire _ _ _ Hmi Bmi),
    (be16_of_wire _ _ _ Hpa Bpa), (be16_of_wire _ _ _ Hbu Bbu).
  rewrite (be64_of_wire _ _ _ _ _ _ _ _ _ Hda Bda).
  rewrite Rch. reflexivity.
Qed.

Lemma ascii_of_bytes (l : list Z) :
  Forall is_byte l ->
  ascii_text (cstr (map (fun b => if b <? 128 then b else 63) l)).
Proof.
  rewrite cstr_map_ascii. intros H.
  assert (Forall (fun c => 0 < c < 256) (cstr l)) as H'.
  { induction H as [|c l Hc _ IH]; simpl; [constructor|].
    unfold nonzero. destruct (Z.eqb_spec c 0); simpl; constructor; auto.
    unfold is_byte in Hc. lia. }
  unfold ascii_text. induction H' as [|c s Hc _ IH]; simpl; constructor; auto.
  destruct (Z.ltb_spec c 128); lia.
Qed.

Lemma Forall_slot (b : list Z) (off w : nat) :
  Forall is_byte b -> Forall is_byte (firstn w (skipn off b)).
Proof.
  intros H. apply Forall_forall. intros x Hx.
  rewrite Forall_forall in H. apply H.
  rewrite <- (firstn_skipn off b). apply in_or_app. right.
  rewrite <- (firstn_skipn w (skipn off b)). apply in_or_app. now left.
Qed.

(** X9: every 64-byte buffer with the tag 1 decodes, whatever bytes follow
    the tag, to a valid record: ASCII texts without NUL of at most 24, 15
    and 7 characters, integers in the range of their types. *)
Theorem Decode_gives_valid (b : list Z) :
  length b = 64%nat -> Forall is_byte b -> nth 0 b 0 = 1 ->
  exists v,
    VersionInfo.Decode (Some b) = VersionInfo.Returned true v /\
    valid_info v.
Proof.
  intros Hlen Hb Htag. eexists. split; [now apply Decode_fields|].
  pose proof (fun k => nth_is_byte b k Hb) as B.
  unfold valid_info.
  cbn [VersionInfo._product VersionInfo._major VersionInfo._minor
       VersionInfo._patch VersionInfo._build VersionInfo._releaseChannel
       VersionInfo._metadata VersionInfo._commitHash
       VersionInfo._unixTimestamp VersionInfo.or_empty].
  rewrite !GetCString_cstr. unfold VersionInfo.ASCII_GetString.
  repeat match goal with
         | |- _ /\ _ => split
         end;
    try (apply ascii_of_bytes, Forall_slot, Hb);
    try apply u16_range; try apply B.
  - eapply Nat.le_trans; [apply cstr_length|].
    rewrite length_map. apply firstn_le_length.
  - eapply Nat.le_trans; [apply cstr_length|].
    rewrite length_map. apply firstn_le_length.
  - eapply Nat.le_trans; [apply cstr_length|].
    rewrite length_map. apply firstn_le_length.
  - rewrite be64_value_cs by apply B.
    pose proof (B 56%nat). pose proof (B 57%nat). pose proof (B 58%nat).
    pose proof (B 59%nat). pose proof (B 60%nat). pose proof (B 61%nat).
    pose proof (B 62%nat). pose proof (B 63%nat). unfold is_byte in *. lia.
  - rewrite be64_value_cs by apply B.
    pose proof (B 56%nat). pose proof (B 57%nat). pose proof (B 58%nat).
    pose proof (B 59%nat). pose proof (B 60%nat). pose proof (B 61%nat).
    pose proof (B 62%nat). pose proof (B 63%nat). unfold is_byte in *. lia.
Qed.

(** X10: once the three texts went through their setters, whatever was
    given to them, [Encode] does not throw: it returns 64 bytes, the first
    of them the tag 1. *)
Theorem Encode_after_setters (v : VersionInfo.t)
    (p m c : option (list Z)) :
  exists E,
    VersionInfo.Encode
      (VersionInfo.set_CommitHash
         (VersionInfo.set_Metadata (VersionInfo.set_Product v p) m) c)
    = VersionInfo.Encoded E /\
    length E = 64%nat /\ nth 0 E 0 = 1.
Proof.
  eexists. split.
  - apply Encode_layout;
      unfold VersionInfo.Product, VersionInfo.Metadata, VersionInfo.CommitHash;
      cbn [VersionInfo.set_CommitHash VersionInfo.set_Metadata
           VersionInfo.set_Product VersionInfo._product VersionInfo._metadata
           VersionInfo._commitHash];
      (eapply Nat.le_trans; [apply TrimEnd_length|]);
      cbn [VersionInfo.or_empty]; apply clip_length.
  - split; [|reflexivity].
    rewrite !length_app, !nul_padded_length. reflexivity.
Qed.

Lemma valid_getters (v : VersionInfo.t) :
  valid_info v ->
  VersionInfo.Product v = VersionInfo.or_empty (VersionInfo._product v) /\
  VersionInfo.Metadata v = VersionInfo.or_empty (VersionInfo._metadata v) /\
  VersionInfo.CommitHash v = VersionInfo.or_empty (VersionInfo._commitHash v).
Proof.
  intros (Ap & Am & Ac & _).
  unfold VersionInfo.Product, VersionInfo.Metadata, VersionInfo.CommitHash.
  rewrite !TrimEnd_id by (apply ascii_text_nonzero; assumption). auto.
Qed.

Lemma to_byte_shiftr (x k : Z) :
  0 <= k -> VersionInfo.to_byte (Z.shiftr x k) = (x / 2 ^ k) mod 256.
Proof. intros H. unfold VersionInfo.to_byte. now rewrite Z.shiftr_div_pow2. Qed.

(** The wire form of the C struct that holds the values of a valid C#
    record is what [Encode] returns for the record. *)
Lemma Encode_wire (v : VersionInfo.t) :
  valid_info v ->
  VersionInfo.Encode v = VersionInfo.Encoded (wire_format (struct_of v)).
Proof.
  intros Hv. destruct (valid_getters v Hv) as (Gp & Gm & Gc).
  destruct Hv as (Ap & Am & Ac & Lp & Lm & Lc & _).
  rewrite Encode_layout by (rewrite ?Gp, ?Gm, ?Gc; assumption).
  f_equal. unfold wire_format, struct_of.
  cbn [product major minor patch build releaseChannel metadata commitHash date].
  rewrite Gp, Gm, Gc.
  rewrite !cstr_padded by (apply ascii_text_nonzero; assumption).
  unfold VersionInfo.ASCII_GetBytes.
  rewrite !map_ascii_id by (apply ascii_text_lt; assumption).
  rewrite !big_endian_2, big_endian_8.
  rewrite !to_byte_shiftr by lia.
  reflexivity.
Qed.

(** X11: for a valid record the C# encoder returns, byte for byte, what
    the C encoder writes into a 64-byte buffer for the C struct holding the
    same values. *)
Theorem encoders_agree (v : VersionInfo.t) (buf : list Z) :
  valid_info v -> length buf = 64%nat ->
  exists E,
    VersionInfo.Encode v = VersionInfo.Encoded E /\
    prodVersionEncodeBytes (Some buf) (Some (struct_of v)) = (64%nat, Some E).
Proof.
  intros Hv Hlen. exists (wire_format (struct_of v)).
  split; [now apply Encode_wire|].
  rewrite encode_wire by lia. rewrite skipn_all2 by lia.
  now rewrite app_nil_r.
Qed.

Lemma struct_of_valid (v : VersionInfo.t) :
  valid_info v ->
  in_range (struct_of v) /\ ascii_struct (struct_of v) /\
  info_of (struct_of v) = non_null v.
Proof.
  intros Hv. destruct (valid_getters v Hv) as (Gp & Gm & Gc).
  destruct Hv as (Ap & Am & Ac & Lp & Lm & Lc & Hma & Hmi & Hpa & Hbu & Hch & Hts).
  unfold in_range, ascii_struct, info_of, non_null, struct_of.
  cbn [product major minor patch build releaseChannel metadata commitHash date].
  rewrite Gp, Gm, Gc.
  rewrite !cstr_padded by (apply ascii_text_nonzero; assumption).
  rewrite !firstn_all2 by assumption.
  repeat split; try assumption; try lia.
  unfold char_of_enum, to_char. change (2 ^ 8) with 256.
  unfold is_byte in Hch. rewrite Z.mod_small by lia. reflexivity.
Qed.

(** X12: a valid record comes back from its encoding: [Encode] returns 64
    bytes which [Decode] turns into the same record, a null string apart,
    which comes back empty. *)
Theorem Decode_Encode (v : VersionInfo.t) :
  valid_info v ->
  exists E,
    VersionInfo.Encode v = VersionInfo.Encoded E /\
    length E = 64%nat /\
    VersionInfo.Decode (Some E) = VersionInfo.Returned true (non_null v).
Proof.
  intros Hv. destruct (struct_of_valid v Hv) as (Hr & Ha & Hi).
  exists (wire_format (struct_of v)).
  split; [now apply Encode_wire|]. split; [apply wire_format_length|].
  destruct (wire_reads (struct_of v) []) as
    (Ht & Rp & _ & _ & _ & _ & Rch & Rm & Rc & _ & _ & _).
  rewrite app_nil_r in Ht, Rp, Rch, Rm, Rc.
  destruct (wire_bytes (struct_of v)) as (Bma & Bmi & Bpa & Bbu & Bda).
  destruct Hr as (Hma & Hmi & Hpa & Hbu & Hda). destruct Ha as (Ap & Am & Ac).
  rewrite Decode_fields by (try apply wire_format_length; exact Ht).
  rewrite (GetCString_wire _ _ _ _ Rp Ap), (GetCString_wire _ _ _ _ Rm Am),
    (GetCString_wire _ _ _ _ Rc Ac).
  rewrite (be16_of_wire _ _ _ Hma Bma), (be16_of_wire _ _ _ Hmi Bmi),
    (be16_of_wire _ _ _ Hpa Bpa), (be16_of_wire _ _ _ Hbu Bbu).
  rewrite (be64_of_wire _ _ _ _ _ _ _ _ _ Hda Bda).
  rewrite Rch. rewrite <- Hi. reflexivity.
Qed.

(** ** The C# formatter *)

(** X13: on the release channel [ToString] does not print the commit
    hash: whatever is stored there, the text is the same. *)
Theorem ToString_release_omits_commit (v : VersionInfo.t)
    (c : option (list Z)) :
  VersionInfo._releaseChannel v = VersionInfo.Release ->
  VersionInfo.ToString (VersionInfo.set_CommitHash v c) =
  VersionInfo.ToString v.
Proof.
  intros H. unfold VersionInfo.ToString, VersionInfo.Product,
    VersionInfo.Metadata.
  cbn [VersionInfo.set_CommitHash VersionInfo._product VersionInfo._major
       VersionInfo._minor VersionInfo._patch VersionInfo._build
       VersionInfo._releaseChannel VersionInfo._metadata].
  rewrite H, Z.eqb_refl. reflexivity.
Qed.

Lemma array_nonzero_head (s : list Z) (k : nat) :
  Forall (fun c => c <> 0) s ->
  nonzero (nth 0 (s ++ repeat 0 (S k)) 0) = negb (VersionInfo.IsEmpty s).
Proof.
  intros H. destruct H as [|c l Hc _]; simpl; [reflexivity|].
  unfold nonzero. destruct (Z.eqb_spec c 0); [contradiction|reflexivity].
Qed.

(** X14: for a valid record the two formatters print the same text up to
    the build number: the C# text is that common part followed by
    " build N" when the build number is not 0, the C text is the common
    part followed by the one character whose code is the low byte of the
    build number. *)
Theorem formatters_agree_before_build (v : VersionInfo.t) :
  valid_info v ->
  exists common,
    VersionInfo.ToString v =
      common ++ (if VersionInfo._build v =? 0 then []
                 else bytes_of_string " build "
                      ++ fmt_u (VersionInfo._build v)) /\
    rendered (struct_of v) =
      Some (common ++ [VersionInfo._build v mod 256]).
Proof.
  intros Hv. destruct (valid_getters v Hv) as (Gp & Gm & Gc).
  destruct Hv as (Ap & Am & Ac & Lp & Lm & Lc & _ & _ & _ & _ & Hch & _).
  pose proof (ascii_text_nonzero _ Ap) as Np.
  pose proof (ascii_text_nonzero _ Am) as Nm.
  pose proof (ascii_text_nonzero _ Ac) as Nc.
  unfold VersionInfo.ToString, rendered, struct_of.
  cbn [product major minor patch build releaseChannel metadata commitHash date].
  rewrite Gp, Gm, Gc. rewrite !TrimEnd_id by assumption.
  replace (25 - length (VersionInfo.or_empty (VersionInfo._product v)))%nat
    with (S (24 - length (VersionInfo.or_empty (VersionInfo._product v))))
    by lia.
  replace (16 - length (VersionInfo.or_empty (VersionInfo._metadata v)))%nat
    with (S (15 - length (VersionInfo.or_empty (VersionInfo._metadata v))))
    by lia.
  replace (8 - length (VersionInfo.or_empty (VersionInfo._commitHash v)))%nat
    with (S (7 - length (VersionInfo.or_empty (VersionInfo._commitHash v))))
    by lia.
  rewrite !array_nonzero_head by assumption.
  rewrite !c_string_defined by (apply in_or_app; right; left; reflexivity).
  rewrite !cstr_padded by assumption.
  unfold char_of_enum, to_char. change (2 ^ 8) with 256.
  unfold is_byte in Hch. rewrite Z.mod_mod by lia.
  rewrite (Z.mod_small (VersionInfo._releaseChannel v)) by lia.
  change VERSION_CHANNEL_RELEASE with VersionInfo.Release.
  eexists. split.
  - rewrite !app_assoc. reflexivity.
  - destruct (VersionInfo.or_empty (VersionInfo._product v)) as [|p0 p];
      destruct (VersionInfo.or_empty (VersionInfo._metadata v)) as [|m0 m];
      destruct (negb (VersionInfo._releaseChannel v =? VersionInfo.Release));
      cbn [VersionInfo.IsEmpty negb]; rewrite <- ?app_assoc; cbn [app];
      reflexivity.
Qed.

(** Two bytes survive the C# decoder followed by the C# encoder. *)
Lemma be16_bytes_cs (a b : Z) :
  is_byte a -> is_byte b ->
  let x := u16 (Z.lor (Z.shiftl a 8) b) in
  VersionInfo.to_byte (Z.shiftr x 8) = a /\ VersionInfo.to_byte x = b.
Proof.
  intros Ha Hb x. subst x. rewrite be16_value by assumption.
  rewrite to_byte_shiftr by lia. unfold VersionInfo.to_byte.
  change (2 ^ 8) with 256. unfold is_byte in *.
  split; Z.div_mod_to_equations; lia.
Qed.

(** Eight bytes survive the C# decoder followed by the C# encoder. *)
Lemma be64_bytes_cs (b0 b1 b2 b3 b4 b5 b6 b7 : Z) :
  is_byte b0 -> is_byte b1 -> is_byte b2 -> is_byte b3 ->
  is_byte b4 -> is_byte b5 -> is_byte b6 -> is_byte b7 ->
  let d :=
    Z.lor (Z.lor (Z.lor (Z.lor (Z.lor (Z.lor (Z.lor
      (u64 (Z.shiftl b0 56)) (u64 (Z.shiftl b1 48))) (u64 (Z.shiftl b2 40)))
      (u64 (Z.shiftl b3 32))) (u64 (Z.shiftl b4 24))) (u64 (Z.shiftl b5 16)))
      (u64 (Z.shiftl b6 8))) b7 in
  [VersionInfo.to_byte (Z.shiftr d 56); VersionInfo.to_byte (Z.shiftr d 48);
   VersionInfo.to_byte (Z.shiftr d 40); VersionInfo.to_byte (Z.shiftr d 32);
   VersionInfo.to_byte (Z.shiftr d 24); VersionInfo.to_byte (Z.shiftr d 16);
   VersionInfo.to_byte (Z.shiftr d 8); VersionInfo.to_byte d]
  = [b0; b1; b2; b3; b4; b5; b6; b7].
Proof.
  intros H0 H1 H2 H3 H4 H5 H6 H7 d. subst d.
  rewrite be64_value_cs by assumption.
  rewrite !to_byte_shiftr by lia. unfold VersionInfo.to_byte.
  unfold is_byte in *.
  change (2 ^ 56) with 72057594037927936.
  change (2 ^ 48) with 281474976710656.
  change (2 ^ 40) with 1099511627776.
  change (2 ^ 32) with 4294967296.
  change (2 ^ 24) with 16777216.
  change (2 ^ 16) with 65536.
  change (2 ^ 8) with 256.
  repeat f_equal; Z.div_mod_to_equations; lia.
Qed.

Lemma cstr_Forall (P : Z -> Prop) (l : list Z) :
  Forall P l -> Forall P (cstr l).
Proof.
  induction 1 as [|c l Hc _ IH]; simpl; [constructor|].
  destruct (nonzero c); constructor; assumption.
Qed.

(** The text [Decode] reads from an ASCII slot that is NUL after its first
    NUL is encoded back as the slot. *)
Lemma slot_survives (b : list Z) (off w : nat) :
  (off + w <= length b)%nat ->
  Forall (fun c => c < 128) (firstn w (skipn off b)) ->
  zero_after_nul (firstn w (skipn off b)) = true ->
  nul_padded w
    (VersionInfo.ASCII_GetBytes
       (VersionInfo.TrimEnd (VersionInfo.GetCString b off w)))
  = firstn w (skipn off b).
Proof.
  intros Hlen Ha Hz.
  rewrite GetCString_cstr. unfold VersionInfo.ASCII_GetString.
  rewrite cstr_map_ascii.
  rewrite (map_ascii_id (cstr _)) by now apply cstr_Forall.
  rewrite TrimEnd_id by apply cstr_nonzero.
  unfold VersionInfo.ASCII_GetBytes.
  rewrite (map_ascii_id (cstr _)) by now apply cstr_Forall.
  unfold nul_padded.
  assert (length (firstn w (skipn off b)) = w) as L
    by (rewrite length_firstn, length_skipn; lia).
  pose proof (cstr_length (firstn w (skipn off b))) as Hc.
  rewrite firstn_all2 by lia.
  rewrite <- L at 2. now apply zero_after_nul_padded.
Qed.

(** X15: a canonical 64-byte buffer whose text slots are ASCII is
    reproduced byte for byte by the C# encoder from what the C# decoder
    made of it. *)
Theorem Encode_Decode (b : list Z) :
  canonical b -> ascii_slots b ->
  exists v,
    VersionInfo.Decode (Some b) = VersionInfo.Returned true v /\
    VersionInfo.Encode v = VersionInfo.Encoded b.
Proof.
  intros (Hlen & Hbytes & Htag & Zp & Zm & Zc) (Ap & Am & Ac).
  eexists. split; [now apply Decode_fields|].
  rewrite Encode_layout;
    try (unfold VersionInfo.Product, VersionInfo.Metadata,
           VersionInfo.CommitHash;
         cbn [VersionInfo._product VersionInfo._metadata
              VersionInfo._commitHash VersionInfo.or_empty];
         eapply Nat.le_trans; [apply TrimEnd_length|apply GetCString_length]).
  f_equal.
  unfold VersionInfo.Product, VersionInfo.Metadata, VersionInfo.CommitHash.
  cbn [VersionInfo._product VersionInfo._major VersionInfo._minor
       VersionInfo._patch VersionInfo._build VersionInfo._releaseChannel
       VersionInfo._metadata VersionInfo._commitHash
       VersionInfo._unixTimestamp VersionInfo.or_empty].
  rewrite !slot_survives by (try assumption; lia).
  pose proof (fun k => nth_is_byte b k Hbytes) as B.
  destruct (be16_bytes_cs _ _ (B 25%nat) (B 26%nat)) as [-> ->].
  destruct (be16_bytes_cs _ _ (B 27%nat) (B 28%nat)) as [-> ->].
  destruct (be16_bytes_cs _ _ (B 29%nat) (B 30%nat)) as [-> ->].
  destruct (be16_bytes_cs _ _ (B 31%nat) (B 32%nat)) as [-> ->].
  rewrite (be64_bytes_cs _ _ _ _ _ _ _ _ (B 56%nat) (B 57%nat) (B 58%nat)
             (B 59%nat) (B 60%nat) (B 61%nat) (B 62%nat) (B 63%nat)).
  assert (VersionInfo.to_byte (nth 33 b 0) = nth 33 b 0) as ->.
  { unfold VersionInfo.to_byte. pose proof (B 33%nat) as H.
    unfold is_byte in H. apply Z.mod_small. lia. }
  rewrite <- Htag.
  pose proof (buffer_layout b [] Hlen) as Lb. rewrite !app_nil_r in Lb.
  symmetry. exact Lb.
Qed.

Lemma struct_of_texts (v : VersionInfo.t) :
  valid_info v ->
  cstr (product (struct_of v)) = VersionInfo.or_empty (VersionInfo._product v) /\
  cstr (metadata (struct_of v))
    = VersionInfo.or_empty (VersionInfo._metadata v) /\
  cstr (commitHash (struct_of v))
    = VersionInfo.or_empty (VersionInfo._commitHash v).
Proof.
  intros Hv. destruct (valid_getters v Hv) as (Gp & Gm & Gc).
  destruct Hv as (Ap & Am & Ac & _).
  unfold struct_of. cbn [product metadata commitHash].
  rewrite Gp, Gm, Gc.
  rewrite !cstr_padded by (apply ascii_text_nonzero; assumption). auto.
Qed.

Section Interop.

Variable char_is_signed : bool.
Variable enum_is_signed : bool.

Local Abbreviation decode :=
  (prodVersionDecodeBytes char_is_signed enum_is_signed).
Local Abbreviation enum_of := (enum_of_char char_is_signed enum_is_signed).

(** X16: what the C# encoder returns for a valid record, the C decoder
    reads as the same values: the three texts, the integers, the timestamp,
    and as channel the enum value of the character that was written. *)
Theorem c_decodes_cs_encoding (v : VersionInfo.t) (old : prodVersion_t) :
  valid_info v ->
  exists E r,
    VersionInfo.Encode v = VersionInfo.Encoded E /\
    decode (Some E) (Some old) = (true, Some r) /\
    cstr (product r) = VersionInfo.or_empty (VersionInfo._product v) /\
    major r = VersionInfo._major v /\
    minor r = VersionInfo._minor v /\
    patch r = VersionInfo._patch v /\
    build r = VersionInfo._build v /\
    releaseChannel r = enum_of (VersionInfo._releaseChannel v) /\
    char_of_enum (releaseChannel r) = VersionInfo._releaseChannel v /\
    cstr (metadata r) = VersionInfo.or_empty (VersionInfo._metadata v) /\
    cstr (commitHash r) = VersionInfo.or_empty (VersionInfo._commitHash v) /\
    date r = VersionInfo._unixTimestamp v.
Proof.
  intros Hv. destruct (struct_of_valid v Hv) as (Hr & _ & _).
  destruct (struct_of_texts v Hv) as (Tp & Tm & Tc).
  pose proof Hv as (_ & _ & _ & Lp & Lm & Lc & _ & _ & _ & _ & Hch & _).
  eexists _, _. split; [now apply Encode_wire|].
  split.
  { rewrite <- (app_nil_r (wire_format (struct_of v))).
    apply decode_wire, Hr. }
  cbn [product major minor patch build releaseChannel metadata commitHash date].
  rewrite !cstr_nul_padded, Tp, Tm, Tc.
  rewrite !firstn_all2 by assumption.
  assert (char_of_enum (releaseChannel (struct_of v))
          = VersionInfo._releaseChannel v) as ->.
  { unfold char_of_enum, to_char. change (2 ^ 8) with 256.
    unfold is_byte in Hch. apply Z.mod_small. exact Hch. }
  repeat split; try reflexivity.
  apply char_of_enum_of_char, Hch.
Qed.

End Interop.

(** ** The further properties at concrete inputs *)

Lemma acme_well_formed : well_formed (acme VERSION_CHANNEL_BETA 7).
Proof.
  unfold well_formed, in_range, terminated. cbn.
  repeat split; try lia; tauto.
Defined.

Lemma acme_info_valid : valid_info (acme_info VersionInfo.Beta 7).
Proof.
  unfold valid_info, ascii_text, is_byte. cbn. unfold VersionInfo.Beta.
  repeat split; try lia; repeat constructor; lia.
Defined.

Lemma format_buffer_bounds_witness :
  exists text,
    rendered (acme VERSION_CHANNEL_BETA 7) = Some text /\
    (8 <= length text <= 70)%nat /\
    ((length (repeat 255 71) <= 8)%nat ->
     exists out,
       prodVersionToString (Some (acme VERSION_CHANNEL_BETA 7))
         (Some (repeat 255 71)) = Some (0%nat, Some out) /\
       cstr out = []) /\
    ((71 <= length (repeat 255 71))%nat ->
     prodVersionToString (Some (acme VERSION_CHANNEL_BETA 7))
       (Some (repeat 255 71)) =
     Some (length text,
           Some (text ++ 0 :: skipn (S (length text)) (repeat 255 71)))).
Proof.
  exact (format_buffer_bounds (acme VERSION_CHANNEL_BETA 7) (repeat 255 71)
           acme_well_formed).
Defined.

Lemma release_omits_commit_witness :
  prodVersionToString
    (Some (set_commitHash (acme VERSION_CHANNEL_RELEASE 7) (repeat 65 8)))
    (Some (repeat 0 64)) =
  prodVersionToString (Some (acme VERSION_CHANNEL_RELEASE 7))
    (Some (repeat 0 64)).
Proof.
  apply (release_omits_commit (acme VERSION_CHANNEL_RELEASE 7)).
  reflexivity.
Defined.

Lemma returned_length_counts_build_witness :
  exists out,
    prodVersionToString (Some (acme VERSION_CHANNEL_RELEASE 0))
      (Some (repeat 255 64)) = Some (12%nat, Some out) /\
    nth 11 out 0 = 0 /\
    (0 = 0 -> (length (cstr out) < 12)%nat).
Proof.
  apply (returned_length_counts_build (acme VERSION_CHANNEL_RELEASE 0)
           (repeat 255 64) (bytes_of_string "ACME 1.2.3r" ++ [0])).
  - reflexivity.
  - simpl. lia.
  - simpl. unfold INT_MAX. lia.
Defined.

Lemma decode_well_formed_witness :
  well_formed
    (mkProdVersion (repeat 0 25) 0 0 0 0 (enum_of_char true false 200)
       (repeat 0 16) (repeat 0 8) 0).
Proof.
  apply (decode_well_formed true false unknown_channel blank).
  reflexivity.
Defined.

Lemma decoded_struct_formats_witness :
  exists text,
    prodVersionToString
      (Some (mkProdVersion (repeat 0 25) 0 0 0 0 (enum_of_char true false 200)
               (repeat 0 16) (repeat 0 8) 0))
      (Some (repeat 255 71)) =
      Some (length text,
            Some (text ++ 0 :: skipn (S (length text)) (repeat 255 71))) /\
    (8 <= length text <= 70)%nat.
Proof.
  apply (decoded_struct_formats true false unknown_channel (repeat 255 71)
           blank).
  - reflexivity.
  - simpl. lia.
Defined.

Lemma acme_representable :
  representable true false (acme VERSION_CHANNEL_RELEASE 7).
Proof.
  unfold representable, in_range. cbn.
  repeat split; try lia.
Defined.

Lemma acme_leftover_representable : representable true false acme_leftover.
Proof.
  unfold representable, in_range. cbn.
  repeat split; try lia.
Defined.

Lemma encode_injective_witness :
  cstr (product (acme VERSION_CHANNEL_RELEASE 7)) = cstr (product acme_leftover)
  /\ major (acme VERSION_CHANNEL_RELEASE 7) = major acme_leftover
  /\ minor (acme VERSION_CHANNEL_RELEASE 7) = minor acme_leftover
  /\ patch (acme VERSION_CHANNEL_RELEASE 7) = patch acme_leftover
  /\ build (acme VERSION_CHANNEL_RELEASE 7) = build acme_leftover
  /\ releaseChannel (acme VERSION_CHANNEL_RELEASE 7)
     = releaseChannel acme_leftover
  /\ cstr (metadata (acme VERSION_CHANNEL_RELEASE 7))
     = cstr (metadata acme_leftover)
  /\ cstr (commitHash (acme VERSION_CHANNEL_RELEASE 7))
     = cstr (commitHash acme_leftover)
  /\ date (acme VERSION_CHANNEL_RELEASE 7) = date acme_leftover.
Proof.
  apply (encode_injective true false (acme VERSION_CHANNEL_RELEASE 7)
           acme_leftover (repeat 255 64)).
  - simpl. lia.
  - exact acme_representable.
  - exact acme_leftover_representable.
  - reflexivity.
Defined.

Lemma reencode_is_stable_witness :
  exists out v',
    prodVersionEncodeBytes (Some (repeat 255 64)) (Some overlong)
      = (64%nat, Some out) /\
    prodVersionDecodeBytes true false (Some out) (Some blank)
      = (true, Some v') /\
    prodVersionEncodeBytes (Some (repeat 0 64)) (Some v') =
      (64%nat, Some (firstn 64 out ++ skipn 64 (repeat 0 64))).
Proof.
  apply (reencode_is_stable true false overlong blank (repeat 255 64)
           (repeat 0 64)).
  - simpl. lia.
  - simpl. lia.
  - unfold in_range. cbn. lia.
Defined.

Lemma decode_encode_exact_witness :
  exists out,
    prodVersionEncodeBytes (Some (repeat 255 64))
      (Some (acme VERSION_CHANNEL_BETA 7)) = (64%nat, Some out) /\
    prodVersionDecodeBytes true false (Some out) (Some blank)
    = (true, Some (acme VERSION_CHANNEL_BETA 7)).
Proof.
  apply (decode_encode_exact true false (acme VERSION_CHANNEL_BETA 7) blank
           (repeat 255 64));
    [simpl; lia | unfold in_range; cbn; lia | reflexivity ..].
Defined.

Lemma cs_decodes_c_encoding_witness :
  exists out,
    prodVersionEncodeBytes (Some (repeat 255 64))
      (Some (acme VERSION_CHANNEL_BETA 7)) = (64%nat, Some out) /\
    VersionInfo.Decode (Some out) =
    VersionInfo.Returned true (info_of (acme VERSION_CHANNEL_BETA 7)).
Proof.
  apply (cs_decodes_c_encoding (acme VERSION_CHANNEL_BETA 7) (repeat 255 64)).
  - reflexivity.
  - unfold in_range. cbn. lia.
  - unfold ascii_struct, ascii_text. cbn.
    repeat split; repeat constructor; lia.
Defined.

Lemma Decode_gives_valid_witness :
  exists v,
    VersionInfo.Decode (Some unknown_channel) = VersionInfo.Returned true v /\
    valid_info v.
Proof.
  apply (Decode_gives_valid unknown_channel).
  - reflexivity.
  - unfold unknown_channel, is_byte. cbn. repeat constructor; lia.
  - reflexivity.
Defined.

Lemma encoders_agree_witness :
  exists E,
    VersionInfo.Encode (acme_info VersionInfo.Beta 7) = VersionInfo.Encoded E /\
    prodVersionEncodeBytes (Some (repeat 255 64))
      (Some (struct_of (acme_info VersionInfo.Beta 7))) = (64%nat, Some E).
Proof.
  apply (encoders_agree (acme_info VersionInfo.Beta 7) (repeat 255 64)).
  - exact acme_info_valid.
  - reflexivity.
Defined.

Lemma Decode_Encode_witness :
  exists E,
    VersionInfo.Encode (acme_info VersionInfo.Beta 7) = VersionInfo.Encoded E /\
    length E = 64%nat /\
    VersionInfo.Decode (Some E) =
    VersionInfo.Returned true (non_null (acme_info VersionInfo.Beta 7)).
Proof. exact (Decode_Encode (acme_info VersionInfo.Beta 7) acme_info_valid). Defined.

Lemma ToString_release_omits_commit_witness :
  VersionInfo.ToString
    (VersionInfo.set_CommitHash (acme_info VersionInfo.Release 7)
       (Some (bytes_of_string "fffffff")))
  = VersionInfo.ToString (acme_info VersionInfo.Release 7).
Proof.
  apply (ToString_release_omits_commit (acme_info VersionInfo.Release 7)).
  reflexivity.
Defined.

Lemma formatters_agree_before_build_witness :
  exists common,
    VersionInfo.ToString (acme_info VersionInfo.Beta 7) =
      common ++ (if VersionInfo._build (acme_info VersionInfo.Beta 7) =? 0
                 then []
                 else bytes_of_string " build "
                      ++ fmt_u (VersionInfo._build
                                  (acme_info VersionInfo.Beta 7))) /\
    rendered (struct_of (acme_info VersionInfo.Beta 7)) =
      Some (common
            ++ [VersionInfo._build (acme_info VersionInfo.Beta 7) mod 256]).
Proof.
  exact (formatters_agree_before_build (acme_info VersionInfo.Beta 7)
           acme_info_valid).
Defined.

Lemma wire_acme_canonical :
  canonical (wire_format (acme VERSION_CHANNEL_BETA 7)) /\
  ascii_slots (wire_format (acme VERSION_CHANNEL_BETA 7)).
Proof.
  unfold canonical, ascii_slots. repeat split; try reflexivity;
    vm_compute; repeat constructor; discriminate.
Defined.

Lemma Encode_Decode_witness :
  exists v,
    VersionInfo.Decode (Some (wire_format (acme VERSION_CHANNEL_BETA 7)))
      = VersionInfo.Returned true v /\
    VersionInfo.Encode v =
    VersionInfo.Encoded (wire_format (acme VERSION_CHANNEL_BETA 7)).
Proof.
  exact (Encode_Decode (wire_format (acme VERSION_CHANNEL_BETA 7))
           (proj1 wire_acme_canonical) (proj2 wire_acme_canonical)).
Defined.

Lemma c_decodes_cs_encoding_witness :
  exists E r,
    VersionInfo.Encode (acme_info VersionInfo.Beta 7) = VersionInfo.Encoded E /\
    prodVersionDecodeBytes true false (Some E) (Some blank) = (true, Some r) /\
    cstr (product r) = bytes_of_string "ACME" /\
    major r = 1 /\ minor r = 2 /\ patch r = 3 /\ build r = 7 /\
    releaseChannel r = enum_of_char true false VersionInfo.Beta /\
    char_of_enum (releaseChannel r) = VersionInfo.Beta /\
    cstr (metadata r) = [] /\
    cstr (commitHash r) = bytes_of_string "abc1234" /\
    date r = 1700000000.
Proof.
  exact (c_decodes_cs_encoding true false (acme_info VersionInfo.Beta 7) blank
           acme_info_valid).
Defined.
